(** * Shop API: a shallow embedding of [main.py] and its verified properties

    The handlers of the FastAPI application are embedded as pure functions
    over an explicit store state.  Every handler takes the state it runs in
    and gives back what it returns or raises, together with the state it
    leaves behind: a handler that raises after it has mutated an object leaves
    the mutation in the state, exactly as the Python code does. *)

From Stdlib Require Import ZArith String List Bool Lia FinFun.
From Stdlib Require Import Floats.SpecFloat.
Import ListNotations.
Set Warnings "-register-all".
Open Scope string_scope.
Open Scope list_scope.
Open Scope Z_scope.

(** ** Python floats: IEEE 754 binary64 *)

Module PyFloat.

Definition prec : Z := 53.
Definition emax : Z := 1024.

Definition t : Type := spec_float.

(** [0.0] *)
Definition zero : t := S754_zero false.

(** [a + b] on two floats. *)
Definition add (a b : t) : t := SFadd prec emax a b.

(** [a * b] on two floats. *)
Definition mul (a b : t) : t := SFmul prec emax a b.

(** [a <= b] on two floats (false when either is a NaN). *)
Definition leb (a b : t) : bool := SFleb a b.

(** The float [m * 2 ** e], correctly rounded. *)
Definition of_dyadic (m e : Z) : t := binary_normalize prec emax m e false.

(** [float(z)]: the correctly rounded conversion of an integer; the result
    is an infinity when [z] is out of range. *)
Definition of_Z (z : Z) : t := of_dyadic z 0.

Definition is_infinity (f : t) : bool :=
  match f with S754_infinity _ => true | _ => false end.

(** [math.isfinite(f)]: neither a NaN nor an infinity. *)
Definition is_finite (f : t) : bool :=
  match f with S754_nan | S754_infinity _ => false | _ => true end.

(** Exact comparison of an integer with a float, as CPython compares an
    [int] with a [float]: [None] when the float is a NaN. *)
Definition compare_Z (z : Z) (f : t) : option comparison :=
  match f with
  | S754_nan => None
  | S754_infinity s => Some (if s then Gt else Lt)
  | S754_zero _ => Some (z ?= 0)
  | S754_finite s m e =>
      let v := cond_Zopp s (Zpos m) in
      if 0 <=? e then Some (z ?= v * 2 ^ e) else Some (z * 2 ^ (- e) ?= v)
  end.

End PyFloat.

(** ** Python values and exceptions *)

(** What [Any] ranges over in a decoded JSON body. *)
Inductive value : Type :=
| VNone
| VBool (b : bool)
| VInt (z : Z)
| VFloat (f : PyFloat.t)
| VStr (s : string)
| VList (l : list value)
| VDict (d : list (string * value)).

Inductive exn : Type :=
| HTTPException (status_code : Z)
| TypeError
| OverflowError
| ValueError.

Definition HTTP_201_CREATED : Z := 201.
Definition HTTP_304_NOT_MODIFIED : Z := 304.
Definition HTTP_404_NOT_FOUND : Z := 404.
Definition HTTP_422_UNPROCESSABLE_ENTITY : Z := 422.

Definition NotFound : exn := HTTPException HTTP_404_NOT_FOUND.
Definition NotModified : exn := HTTPException HTTP_304_NOT_MODIFIED.
Definition UnprocessableEntity : exn := HTTPException HTTP_422_UNPROCESSABLE_ENTITY.

(** What a call does: it returns a value or raises. *)
Inductive outcome (A : Type) : Type :=
| Return (a : A)
| Raise (e : exn).

Arguments Return {A} a.
Arguments Raise {A} e.

Definition bind {A B : Type} (m : outcome A) (k : A -> outcome B) : outcome B :=
  match m with
  | Return a => k a
  | Raise e => Raise e
  end.

Notation "x <- m ;; k" := (bind m (fun x => k))
  (at level 61, m at next level, right associativity).

(** [bool] is a subclass of [int]: [True] is 1 and [False] is 0. *)
Definition int_of_bool (b : bool) : Z := if b then 1 else 0.

(** [float(z)] as Python's arithmetic does it for an [int] operand:
    [OverflowError] when the integer is too large. *)
Definition float_of_int (z : Z) : outcome PyFloat.t :=
  let f := PyFloat.of_Z z in
  if PyFloat.is_infinity f then Raise OverflowError else Return f.

(** [a + v] for a float [a]: a float, an int or a bool operand is added,
    any other operand is a [TypeError]. *)
Definition float_add (a : PyFloat.t) (v : value) : outcome PyFloat.t :=
  match v with
  | VFloat f => Return (PyFloat.add a f)
  | VInt z => f <- float_of_int z ;; Return (PyFloat.add a f)
  | VBool b => f <- float_of_int (int_of_bool b) ;; Return (PyFloat.add a f)
  | _ => Raise TypeError
  end.

Definition comparison_ge (c : option comparison) : bool :=
  match c with Some (Gt | Eq) => true | _ => false end.

Definition comparison_le (c : option comparison) : bool :=
  match c with Some (Lt | Eq) => true | _ => false end.

(** [v >= bound] for a float [bound]. *)
Definition value_ge (v : value) (bound : PyFloat.t) : outcome bool :=
  match v with
  | VFloat f => Return (PyFloat.leb bound f)
  | VInt z => Return (comparison_ge (PyFloat.compare_Z z bound))
  | VBool b => Return (comparison_ge (PyFloat.compare_Z (int_of_bool b) bound))
  | _ => Raise TypeError
  end.

(** [v <= bound] for a float [bound]. *)
Definition value_le (v : value) (bound : PyFloat.t) : outcome bool :=
  match v with
  | VFloat f => Return (PyFloat.leb f bound)
  | VInt z => Return (comparison_le (PyFloat.compare_Z z bound))
  | VBool b => Return (comparison_le (PyFloat.compare_Z (int_of_bool b) bound))
  | _ => Raise TypeError
  end.

(** [json.dumps(v, allow_nan=False)], which is how a [JSONResponse] renders
    its content when it is constructed: a float that is a NaN or an infinity,
    at any depth, is a [ValueError]; everything else renders. *)
Fixpoint json_dumps (v : value) : outcome unit :=
  match v with
  | VFloat f => if PyFloat.is_finite f then Return tt else Raise ValueError
  | VList l =>
      (fix each (l : list value) : outcome unit :=
         match l with
         | [] => Return tt
         | x :: rest => _ <- json_dumps x ;; each rest
         end) l
  | VDict d =>
      (fix each (d : list (string * value)) : outcome unit :=
         match d with
         | [] => Return tt
         | (_, x) :: rest => _ <- json_dumps x ;; each rest
         end) d
  | _ => Return tt
  end.

(** ** Python containers *)

(** [l[start:stop]] with Python's treatment of negative and out-of-range
    bounds. *)
Definition slice_index (len i : Z) : Z :=
  if i <? 0 then Z.max 0 (i + len) else Z.min i len.

Definition slice {A : Type} (l : list A) (start stop : Z) : list A :=
  let len := Z.of_nat (length l) in
  let lo := slice_index len start in
  let hi := slice_index len stop in
  firstn (Z.to_nat (hi - lo)) (skipn (Z.to_nat lo) l).

(** [[x for x in l if keep x]], where evaluating the condition may raise. *)
Fixpoint comprehension {A : Type} (keep : A -> outcome bool) (l : list A)
  : outcome (list A) :=
  match l with
  | [] => Return []
  | x :: rest =>
      b <- keep x ;;
      rest' <- comprehension keep rest ;;
      Return (if b then x :: rest' else rest')
  end.

(** A [dict] with [int] keys: the entries in insertion order. *)
Module Dict.
Section Dict.
Context {V : Type}.

Definition t : Type := list (Z * V).

Definition empty : t := [].

(** [d.get(k)] *)
Fixpoint get (k : Z) (d : t) : option V :=
  match d with
  | [] => None
  | (k', v) :: rest => if k =? k' then Some v else get k rest
  end.

(** [k in d] *)
Definition contains (k : Z) (d : t) : bool :=
  match get k d with Some _ => true | None => false end.

(** [d[k] = v]: an existing key keeps its position, a new key goes last. *)
Fixpoint set (k : Z) (v : V) (d : t) : t :=
  match d with
  | [] => [(k, v)]
  | (k', v') :: rest =>
      if k =? k' then (k, v) :: rest else (k', v') :: set k v rest
  end.

(** [len(d)] *)
Definition len (d : t) : Z := Z.of_nat (length d).

(** [list(d.values())] *)
Definition values (d : t) : list V := map snd d.

(** [list(d.keys())] *)
Definition keys (d : t) : list Z := map fst d.

(** Keys are unique in a [dict]. *)
Definition wf (d : t) : Prop := NoDup (keys d).

End Dict.
Arguments t V : clear implicits.
End Dict.

(** ** The data model *)

(** Modelled from the spec: the module [lecture_2.hw.shop_api.models] that
    declares [ItemPost], [Item], [CartItem] and [Cart] is not part of the
    sources.  The records below follow the spec's data model; a constructor
    fills the fields it is not given with the defaults the spec states
    ([deleted] false, an empty [items], a zero [price]), and assigning to a
    field stores the value as it is. *)
Module ItemPost.
Record t : Type := { name : string; price : PyFloat.t }.
End ItemPost.

(** [name] and [price] hold whatever was last assigned to them:
    [patch_item] assigns values of type [Any]. *)
Module Item.
Record t : Type := { id : Z; name : value; price : value; deleted : bool }.

(** [Item(id=i, name=n, price=p)] *)
Definition new (i : Z) (n : string) (p : PyFloat.t) : t :=
  {| id := i; name := VStr n; price := VFloat p; deleted := false |}.

Definition set_name (v : value) (item : t) : t :=
  {| id := id item; name := v; price := price item; deleted := deleted item |}.

Definition set_price (v : value) (item : t) : t :=
  {| id := id item; name := name item; price := v; deleted := deleted item |}.

Definition set_deleted (b : bool) (item : t) : t :=
  {| id := id item; name := name item; price := price item; deleted := b |}.
End Item.

Module CartItem.
Record t : Type := { id : Z; name : value; quantity : Z }.

Definition set_quantity (q : Z) (ci : t) : t :=
  {| id := id ci; name := name ci; quantity := q |}.
End CartItem.

Module Cart.
Record t : Type := { id : Z; items : list CartItem.t; price : PyFloat.t }.

(** [Cart(id=i)] *)
Definition new (i : Z) : t :=
  {| id := i; items := []; price := PyFloat.zero |}.

Definition set_items (l : list CartItem.t) (cart : t) : t :=
  {| id := id cart; items := l; price := price cart |}.

Definition set_price (p : PyFloat.t) (cart : t) : t :=
  {| id := id cart; items := items cart; price := p |}.
End Cart.

(** The two module-level stores, [items_db] and [carts_db]. *)
Record state : Type := {
  items_db : Dict.t Item.t;
  carts_db : Dict.t Cart.t
}.

Definition empty_state : state :=
  {| items_db := Dict.empty; carts_db := Dict.empty |}.

Definition with_items (d : Dict.t Item.t) (st : state) : state :=
  {| items_db := d; carts_db := carts_db st |}.

Definition with_carts (d : Dict.t Cart.t) (st : state) : state :=
  {| items_db := items_db st; carts_db := d |}.

(** A [JSONResponse]: its content, its status code and its [Location]
    header, the latter kept as the path prefix and the id formatted after
    it. *)
Record JSONResponse (C : Type) : Type := {
  content : C;
  status_code : Z;
  location : string * Z
}.

Arguments content {C} _.
Arguments status_code {C} _.
Arguments location {C} _.

(** ** The item handlers *)

(** [POST /item]: the item is stored first; the [JSONResponse] is built
    after, and building it renders the content, which raises for a price that
    is not finite and leaves the item stored. *)
Definition create_item (item : ItemPost.t) (st : state)
  : outcome (JSONResponse (Z * value * value)) * state :=
  let item_id := Dict.len (items_db st) + 1 in
  let new_item := Item.new item_id (ItemPost.name item) (ItemPost.price item) in
  let st' := with_items (Dict.set item_id new_item (items_db st)) st in
  (_ <- json_dumps (VDict [("id", VInt (Item.id new_item));
                           ("name", Item.name new_item);
                           ("price", Item.price new_item)]) ;;
   Return {| content := (Item.id new_item, Item.name new_item, Item.price new_item);
             status_code := HTTP_201_CREATED;
             location := ("/item/", item_id) |},
   st').

(** [GET /item/{id}] *)
Definition get_item (id : Z) (st : state) : outcome Item.t * state :=
  match Dict.get id (items_db st) with
  | None => (Raise NotFound, st)
  | Some item =>
      if Item.deleted item then (Raise NotFound, st) else (Return item, st)
  end.

(** The condition of the comprehension in [get_item_list]; [and] and [or]
    evaluate their right operand only when the left one does not decide. *)
Definition item_filter (min_price max_price : option PyFloat.t)
  (show_deleted : bool) (item : Item.t) : outcome bool :=
  if show_deleted || negb (Item.deleted item) then
    b <- match min_price with
         | None => Return true
         | Some lo => value_ge (Item.price item) lo
         end ;;
    if b then
      match max_price with
      | None => Return true
      | Some hi => value_le (Item.price item) hi
      end
    else Return false
  else Return false.

(** [GET /item] *)
Definition get_item_list (offset limit : Z) (min_price max_price : option PyFloat.t)
  (show_deleted : bool) (st : state) : outcome (list Item.t) * state :=
  (comprehension (item_filter min_price max_price show_deleted)
     (slice (Dict.values (items_db st)) offset (offset + limit)),
   st).

(** [PUT /item/{id}] *)
Definition update_item (id : Z) (item : ItemPost.t) (st : state)
  : outcome Item.t * state :=
  if negb (Dict.contains id (items_db st)) then (Raise NotFound, st)
  else
    let new_item := Item.new id (ItemPost.name item) (ItemPost.price item) in
    (Return new_item, with_items (Dict.set id new_item (items_db st)) st).

Definition allowed_fields : list string := ["name"; "price"].

(** [key in allowed_fields] *)
Definition is_allowed (key : string) : bool :=
  existsb (String.eqb key) allowed_fields.

(** [setattr(item, key, value)] for the two attributes [patch_item] lets
    through; the last branch is never reached from [patch_item]. *)
Definition setattr (item : Item.t) (key : string) (v : value) : Item.t :=
  if String.eqb key "name" then Item.set_name v item
  else if String.eqb key "price" then Item.set_price v item
  else item.

(** The loop of [patch_item] over [body.items()]: the item as the loop
    leaves it, and whether the loop ran to its end or raised. *)
Fixpoint patch_fields (body : list (string * value)) (item : Item.t)
  : outcome unit * Item.t :=
  match body with
  | [] => (Return tt, item)
  | (key, v) :: rest =>
      if is_allowed key then patch_fields rest (setattr item key v)
      else (Raise UnprocessableEntity, item)
  end.

(** [PATCH /item/{id}]: the item is mutated in place, so the store holds
    the item as the loop left it, whether the loop raised or not. *)
Definition patch_item (id : Z) (body : list (string * value)) (st : state)
  : outcome Item.t * state :=
  match Dict.get id (items_db st) with
  | None => (Raise NotFound, st)
  | Some item =>
      if Item.deleted item then (Raise NotModified, st)
      else
        let '(r, item') := patch_fields body item in
        (_ <- r ;; Return item',
         with_items (Dict.set id item' (items_db st)) st)
  end.

(** [DELETE /item/{id}] *)
Definition delete_item (id : Z) (st : state) : outcome string * state :=
  match Dict.get id (items_db st) with
  | None => (Raise NotFound, st)
  | Some item =>
      (Return "Item marked as deleted",
       with_items (Dict.set id (Item.set_deleted true item) (items_db st)) st)
  end.

(** ** The cart handlers *)

(** [POST /cart] *)
Definition create_cart (st : state) : outcome (JSONResponse Z) * state :=
  let cart_id := Dict.len (carts_db st) + 1 in
  (Return {| content := cart_id;
             status_code := HTTP_201_CREATED;
             location := ("/cart/", cart_id) |},
   with_carts (Dict.set cart_id (Cart.new cart_id) (carts_db st)) st).

(** [GET /cart/{id}] *)
Definition get_cart (id : Z) (st : state) : outcome Cart.t * state :=
  match Dict.get id (carts_db st) with
  | None => (Raise NotFound, st)
  | Some cart => (Return cart, st)
  end.

(** [sum(item.quantity for item in cart.items)] *)
Definition total_quantity (cart : Cart.t) : Z :=
  fold_left Z.add (map CartItem.quantity (Cart.items cart)) 0.

(** The condition of the comprehension in [get_cart_list]. *)
Definition cart_filter (min_price max_price : option PyFloat.t)
  (min_quantity max_quantity : option Z) (cart : Cart.t) : bool :=
  match min_price with None => true | Some lo => PyFloat.leb lo (Cart.price cart) end
  && match max_price with None => true | Some hi => PyFloat.leb (Cart.price cart) hi end
  && match min_quantity with None => true | Some lo => lo <=? total_quantity cart end
  && match max_quantity with None => true | Some hi => total_quantity cart <=? hi end.

(** [GET /cart] *)
Definition get_cart_list (offset limit : Z) (min_price max_price : option PyFloat.t)
  (min_quantity max_quantity : option Z) (st : state)
  : outcome (list Cart.t) * state :=
  (Return (filter (cart_filter min_price max_price min_quantity max_quantity)
             (slice (Dict.values (carts_db st)) offset (offset + limit))),
   st).

(** The [for ... else] of [add_to_cart]: the first cart item with the id of
    [item] gets its quantity incremented; when the loop ends without a
    [break], a new cart item is appended. *)
Fixpoint add_cart_item (item : Item.t) (items : list CartItem.t)
  : list CartItem.t :=
  match items with
  | [] =>
      [{| CartItem.id := Item.id item;
          CartItem.name := Item.name item;
          CartItem.quantity := 1 |}]
  | cart_item :: rest =>
      if CartItem.id cart_item =? Item.id item
      then CartItem.set_quantity (CartItem.quantity cart_item + 1) cart_item :: rest
      else cart_item :: add_cart_item item rest
  end.

(** [POST /cart/{cart_id}/add/{item_id}]: the cart is mutated in place,
    its items first and its price after; when the addition to the price
    raises, the items stay as the loop left them. *)
Definition add_to_cart (cart_id item_id : Z) (st : state)
  : outcome Cart.t * state :=
  match Dict.get cart_id (carts_db st) with
  | None => (Raise NotFound, st)
  | Some cart =>
      match Dict.get item_id (items_db st) with
      | None => (Raise NotFound, st)
      | Some item =>
          if Item.deleted item then (Raise NotFound, st)
          else
            let cart1 := Cart.set_items (add_cart_item item (Cart.items cart)) cart in
            match float_add (Cart.price cart1) (Item.price item) with
            | Raise e => (Raise e, with_carts (Dict.set cart_id cart1 (carts_db st)) st)
            | Return p =>
                let cart2 := Cart.set_price p cart1 in
                (Return cart2, with_carts (Dict.set cart_id cart2 (carts_db st)) st)
            end
      end
  end.

(** ** Requests and reachable states *)

Inductive request : Type :=
| PostItem (item : ItemPost.t)
| GetItem (id : Z)
| GetItemList (offset limit : Z) (min_price max_price : option PyFloat.t)
    (show_deleted : bool)
| PutItem (id : Z) (item : ItemPost.t)
| PatchItem (id : Z) (body : list (string * value))
| DeleteItem (id : Z)
| PostCart
| GetCart (id : Z)
| GetCartList (offset limit : Z) (min_price max_price : option PyFloat.t)
    (min_quantity max_quantity : option Z)
| PostCartAdd (cart_id item_id : Z).

(** The state a request leaves behind, whether its handler returns or
    raises. *)
Definition handle (req : request) (st : state) : state :=
  match req with
  | PostItem item => snd (create_item item st)
  | GetItem id => snd (get_item id st)
  | GetItemList offset limit lo hi show_deleted =>
      snd (get_item_list offset limit lo hi show_deleted st)
  | PutItem id item => snd (update_item id item st)
  | PatchItem id body => snd (patch_item id body st)
  | DeleteItem id => snd (delete_item id st)
  | PostCart => snd (create_cart st)
  | GetCart id => snd (get_cart id st)
  | GetCartList offset limit lo hi qlo qhi =>
      snd (get_cart_list offset limit lo hi qlo qhi st)
  | PostCartAdd cart_id item_id => snd (add_to_cart cart_id item_id st)
  end.

(** [NonNegativeFloat]: the constraint [>= 0] (a NaN does not pass). *)
Definition non_negative_float (f : PyFloat.t) : bool := PyFloat.leb PyFloat.zero f.

Definition non_negative_opt (o : option PyFloat.t) : bool :=
  match o with None => true | Some f => non_negative_float f end.

Definition non_negative_int_opt (o : option Z) : bool :=
  match o with None => true | Some z => 0 <=? z end.

(** What the framework checks before it calls a handler: the annotated
    query parameters of the two listings and, for the two requests that carry
    an [ItemPost], the non-negative price the spec gives it. *)
Definition validated (req : request) : bool :=
  match req with
  | PostItem item | PutItem _ item => non_negative_float (ItemPost.price item)
  | GetItemList offset limit lo hi _ =>
      (0 <=? offset) && (0 <? limit) && non_negative_opt lo && non_negative_opt hi
  | GetCartList offset limit lo hi qlo qhi =>
      (0 <=? offset) && (0 <? limit) && non_negative_opt lo && non_negative_opt hi
      && non_negative_int_opt qlo && non_negative_int_opt qhi
  | _ => true
  end.

(** The states the service gets into from the empty stores by requests that
    satisfy [P]. *)
Inductive reachable_by (P : request -> bool) : state -> Prop :=
| reachable_empty : reachable_by P empty_state
| reachable_handle (req : request) (st : state) :
    reachable_by P st -> P req = true -> reachable_by P (handle req st).

(** Any sequence of requests. *)
Definition reachable : state -> Prop := reachable_by (fun _ => true).

(** Any sequence of requests that passed the framework's validation. *)
Definition reachable_validated : state -> Prop := reachable_by validated.

(** Running a list of requests, first to last. *)
Definition run (reqs : list request) (st : state) : state :=
  fold_left (fun s req => handle req s) reqs st.

(** * The vocabulary of the properties *)

(** ** Ids *)

(** A store whose keys are 1, 2, ..., [len] in insertion order. *)
Definition sequential {V : Type} (d : Dict.t V) : Prop :=
  Dict.keys d = map Z.of_nat (seq 1 (length d)).

(** A store whose every entry carries its key as its id. *)
Definition keyed {V : Type} (id_of : V -> Z) (d : Dict.t V) : Prop :=
  forall k v, Dict.get k d = Some v -> id_of v = k.

Record store_inv (st : state) : Prop := {
  inv_items_sequential : sequential (items_db st);
  inv_carts_sequential : sequential (carts_db st);
  inv_items_keyed : keyed Item.id (items_db st);
  inv_carts_keyed : keyed Cart.id (carts_db st)
}.

(** [d'] has at least the entries of [d]: no key is gone, and the count has
    not shrunk. *)
Definition grows {V : Type} (d d' : Dict.t V) : Prop :=
  Dict.len d <= Dict.len d' /\
  forall k, Dict.contains k d = true -> Dict.contains k d' = true.

(** The id a creating handler reports to its caller. *)
Definition created_id {C : Type} (id_of : C -> Z)
  (r : outcome (JSONResponse C) * state) : option Z :=
  match fst r with
  | Return resp => Some (id_of (content resp))
  | Raise _ => None
  end.

Definition item_content_id (c : Z * value * value) : Z := fst (fst c).
Definition cart_content_id (c : Z) : Z := c.

(** ** Item List *)

(** The values a price can be compared with a float bound: a float, an
    int or a bool.  The data model gives every price a float. *)
Definition is_number (v : value) : bool :=
  match v with
  | VFloat _ | VInt _ | VBool _ => true
  | _ => false
  end.

Definition prices_numeric (st : state) : Prop :=
  forall item, In item (Dict.values (items_db st)) -> is_number (Item.price item) = true.

(** The listing as the spec words it: the window [[offset, offset+limit)]
    of all items, then the three predicates, the price bounds inclusive and
    each of them optional. *)
Definition window {A : Type} (offset limit : Z) (l : list A) : list A :=
  firstn (Z.to_nat limit) (skipn (Z.to_nat offset) l).

Definition at_least (lo : option PyFloat.t) (price : value) : bool :=
  match lo, price with
  | None, _ => true
  | Some lo, VFloat f => PyFloat.leb lo f
  | Some lo, VInt z => comparison_ge (PyFloat.compare_Z z lo)
  | Some lo, VBool b => comparison_ge (PyFloat.compare_Z (int_of_bool b) lo)
  | Some _, _ => false
  end.

Definition at_most (hi : option PyFloat.t) (price : value) : bool :=
  match hi, price with
  | None, _ => true
  | Some hi, VFloat f => PyFloat.leb f hi
  | Some hi, VInt z => comparison_le (PyFloat.compare_Z z hi)
  | Some hi, VBool b => comparison_le (PyFloat.compare_Z (int_of_bool b) hi)
  | Some _, _ => false
  end.

Definition item_passes (min_price max_price : option PyFloat.t)
  (show_deleted : bool) (item : Item.t) : bool :=
  (show_deleted || negb (Item.deleted item))
  && at_least min_price (Item.price item)
  && at_most max_price (Item.price item).

Definition item_list_spec (offset limit : Z) (min_price max_price : option PyFloat.t)
  (show_deleted : bool) (st : state) : list Item.t :=
  filter (item_passes min_price max_price show_deleted)
    (window offset limit (Dict.values (items_db st))).

(** ** AddItem *)

(** The cart item [add_to_cart] makes of an item, at a given quantity. *)
Definition new_cart_item (item : Item.t) (quantity : Z) : CartItem.t :=
  {| CartItem.id := Item.id item;
     CartItem.name := Item.name item;
     CartItem.quantity := quantity |}.

(** The cart items hold none for this item id. *)
Definition lacks (item_id : Z) (items : list CartItem.t) : Prop :=
  forall cart_item, In cart_item items -> CartItem.id cart_item <> item_id.

(** What makes [add_to_cart] fail: the cart id is absent, or the item id is
    absent or its item soft-deleted. *)
Definition add_fails (cart_id item_id : Z) (st : state) : Prop :=
  Dict.get cart_id (carts_db st) = None \/
  Dict.get item_id (items_db st) = None \/
  exists item, Dict.get item_id (items_db st) = Some item /\ Item.deleted item = true.

(** ** Prices *)

(** [price >= 0] evaluates to [True]. *)
Definition price_non_negative (price : value) : bool :=
  match value_ge price PyFloat.zero with
  | Return true => true
  | _ => false
  end.

Definition prices_non_negative (st : state) : Prop :=
  forall item, In item (Dict.values (items_db st)) ->
    price_non_negative (Item.price item) = true.

(** ** Example stores *)

(** The end-to-end scenario of the spec: a pen at 1.5 and an empty cart. *)
Definition pen : ItemPost.t :=
  {| ItemPost.name := "pen"; ItemPost.price := PyFloat.of_dyadic 3 (-1) |}.

Definition pen_item : Item.t := Item.new 1 "pen" (PyFloat.of_dyadic 3 (-1)).

Definition shop : state := run [PostItem pen; PostCart] empty_state.

(** Bodies for [PATCH /item/1]. *)
Definition colour_body : list (string * value) := [("colour", VStr "blue")].

Definition ink_body : list (string * value) :=
  [("name", VStr "ink"); ("colour", VStr "blue")].

Definition negative_price_body : list (string * value) :=
  [("price", VFloat (PyFloat.of_Z (-1)))].

Definition free_body : list (string * value) := [("price", VStr "free")].

(** Three items at 1.5, 2.0 and 10.0, the second one soft-deleted. *)
Definition ink : ItemPost.t :=
  {| ItemPost.name := "ink"; ItemPost.price := PyFloat.of_Z 2 |}.

Definition desk : ItemPost.t :=
  {| ItemPost.name := "desk"; ItemPost.price := PyFloat.of_Z 10 |}.

Definition catalogue : state :=
  run [PostItem pen; PostItem ink; PostItem desk; DeleteItem 2] empty_state.

(** A cart that holds one item priced 2 ** 53, and a second item priced 1.0
    that is not in the cart. *)
Definition bullion : ItemPost.t :=
  {| ItemPost.name := "bullion"; ItemPost.price := PyFloat.of_Z (2 ^ 53) |}.

Definition stamp : ItemPost.t :=
  {| ItemPost.name := "stamp"; ItemPost.price := PyFloat.of_Z 1 |}.

Definition ledger : state :=
  run [PostItem bullion; PostItem stamp; PostCart; PostCartAdd 1 1] empty_state.

(** ** Further vocabulary *)

(** Every key of the body is one [patch_item] lets through. *)
Definition all_allowed (body : list (string * value)) : bool :=
  forallb (fun kv => is_allowed (fst kv)) body.

(** The value the body binds to a key, if any; the last binding counts when
    the list repeats a key (a [dict] never does). *)
Fixpoint last_value (key : string) (body : list (string * value)) : option value :=
  match body with
  | [] => None
  | (k, v) :: rest =>
      match last_value key rest with
      | Some w => Some w
      | None => if String.eqb k key then Some v else None
      end
  end.

Definition value_or (o : option value) (v : value) : value :=
  match o with Some w => w | None => v end.

(** The item with the name and the price the body gives, where it gives
    them. *)
Definition patched (body : list (string * value)) (item : Item.t) : Item.t :=
  {| Item.id := Item.id item;
     Item.name := value_or (last_value "name" body) (Item.name item);
     Item.price := value_or (last_value "price" body) (Item.price item);
     Item.deleted := Item.deleted item |}.

(** The requests that write to the item store, and those that write to the
    cart store. *)
Definition writes_items (req : request) : bool :=
  match req with
  | PostItem _ | PutItem _ _ | PatchItem _ _ | DeleteItem _ => true
  | _ => false
  end.

Definition writes_carts (req : request) : bool :=
  match req with
  | PostCart | PostCartAdd _ _ => true
  | _ => false
  end.

(** A cart whose cart items have pairwise distinct ids, quantities of at
    least 1, and ids that are keys of the item store. *)
Definition cart_ok (st : state) (cart : Cart.t) : Prop :=
  NoDup (map CartItem.id (Cart.items cart)) /\
  forall cart_item, In cart_item (Cart.items cart) ->
    1 <= CartItem.quantity cart_item /\
    Dict.contains (CartItem.id cart_item) (items_db st) = true.

Definition carts_ok (st : state) : Prop :=
  forall k cart, Dict.get k (carts_db st) = Some cart -> cart_ok st cart.

(** The bounds of [get_cart_list], each one optional and inclusive. *)
Definition cart_within (min_price max_price : option PyFloat.t)
  (min_quantity max_quantity : option Z) (cart : Cart.t) : Prop :=
  (forall lo, min_price = Some lo -> PyFloat.leb lo (Cart.price cart) = true) /\
  (forall hi, max_price = Some hi -> PyFloat.leb (Cart.price cart) hi = true) /\
  (forall lo, min_quantity = Some lo -> lo <= total_quantity cart) /\
  (forall hi, max_quantity = Some hi -> total_quantity cart <= hi).

Definition rename_body : list (string * value) :=
  [("price", VFloat (PyFloat.of_Z 2)); ("name", VStr "ink")].

(** The pen was added to the cart, then renamed. *)
Definition renamed_shop : state :=
  run [PostItem pen; PostCart; PostCartAdd 1 1; PatchItem 1 [("name", VStr "ink")]]
    empty_state.

Definition is_patch (req : request) : bool :=
  match req with PatchItem _ _ => true | _ => false end.

(** An item as [create_item] and [update_item] make it: a string for a name
    and a non-negative float for a price. *)
Definition item_typed (item : Item.t) : Prop :=
  exists s f,
    Item.name item = VStr s /\ Item.price item = VFloat f /\
    non_negative_float f = true.

Definition items_typed (st : state) : Prop :=
  forall item, In item (Dict.values (items_db st)) -> item_typed item.

(** [a == b] on two floats. *)
Definition float_eqb (a b : PyFloat.t) : bool := SFeqb a b.

(** What a cart item is known by: its id and the name it was given. *)
Definition cart_item_label (cart_item : CartItem.t) : Z * value :=
  (CartItem.id cart_item, CartItem.name cart_item).

(** [cart'] is [cart] after growth: the same id, the same cart items in the
    same places with the same names, maybe more behind them, and a total
    quantity that is no smaller. *)
Definition cart_extends (cart cart' : Cart.t) : Prop :=
  Cart.id cart' = Cart.id cart /\
  (exists more,
     map cart_item_label (Cart.items cart') =
     map cart_item_label (Cart.items cart) ++ more) /\
  total_quantity cart <= total_quantity cart'.

(** * Properties *)

(** ** The dictionary *)

Section DictFacts.
Context {V : Type}.
Implicit Types (d : Dict.t V) (k : Z) (v : V).

Lemma get_set_same k v d : Dict.get k (Dict.set k v d) = Some v.
Proof.
  induction d as [|[k' v'] d IH]; simpl.
  - now rewrite Z.eqb_refl.
  - destruct (k =? k') eqn:E; simpl; rewrite ?Z.eqb_refl, ?E; auto.
Qed.

Lemma get_set_other k k' v d :
  k' <> k -> Dict.get k' (Dict.set k v d) = Dict.get k' d.
Proof.
  intros N. induction d as [|[k0 v0] d IH]; simpl.
  - apply Z.eqb_neq in N. now rewrite N.
  - destruct (k =? k0) eqn:E; simpl.
    + apply Z.eqb_eq in E. subst k0. apply Z.eqb_neq in N. now rewrite N.
    + now rewrite IH.
Qed.

Lemma set_get_same k v d : Dict.get k d = Some v -> Dict.set k v d = d.
Proof.
  induction d as [|[k' v'] d IH]; simpl; [discriminate|].
  destruct (k =? k') eqn:E; intros H.
  - apply Z.eqb_eq in E. congruence.
  - now rewrite IH.
Qed.

Lemma keys_set_present k v v0 d :
  Dict.get k d = Some v0 -> Dict.keys (Dict.set k v d) = Dict.keys d.
Proof.
  unfold Dict.keys.
  induction d as [|[k' v'] d IH]; simpl; [discriminate|].
  destruct (k =? k') eqn:E; intros H; simpl.
  - apply Z.eqb_eq in E. now subst.
  - f_equal. now apply IH.
Qed.

Lemma set_absent k v d :
  Dict.get k d = None -> Dict.set k v d = d ++ [(k, v)].
Proof.
  induction d as [|[k' v'] d IH]; simpl; [reflexivity|].
  destruct (k =? k'); [discriminate|]. intros H. now rewrite IH.
Qed.

Lemma set_set k v1 v2 d :
  Dict.set k v2 (Dict.set k v1 d) = Dict.set k v2 d.
Proof.
  induction d as [|[k' v'] d IH]; simpl.
  - now rewrite Z.eqb_refl.
  - destruct (k =? k') eqn:E; simpl; rewrite ?Z.eqb_refl, ?E; congruence.
Qed.

Lemma get_None_keys k d : Dict.get k d = None <-> ~ In k (Dict.keys d).
Proof.
  induction d as [|[k' v'] d IH]; simpl; [tauto|].
  destruct (k =? k') eqn:E.
  - apply Z.eqb_eq in E. split; [discriminate|]. intros N. exfalso. apply N. auto.
  - apply Z.eqb_neq in E. rewrite IH. unfold Dict.keys. intuition congruence.
Qed.

Lemma get_Some_values k v d : Dict.get k d = Some v -> In v (Dict.values d).
Proof.
  induction d as [|[k' v'] d IH]; simpl; [discriminate|].
  destruct (k =? k'); intros H.
  - left. congruence.
  - right. now apply IH.
Qed.

Lemma contains_get k d :
  Dict.contains k d = true <-> exists v, Dict.get k d = Some v.
Proof.
  unfold Dict.contains. destruct (Dict.get k d); split; eauto.
  - discriminate.
  - intros [? ?]. discriminate.
Qed.

End DictFacts.

(** ** The loop of PartialUpdate *)

Lemma setattr_keeps_id_deleted item key v :
  Item.id (setattr item key v) = Item.id item /\
  Item.deleted (setattr item key v) = Item.deleted item.
Proof.
  unfold setattr.
  destruct (String.eqb key "name"); [now split|].
  destruct (String.eqb key "price"); now split.
Qed.

Lemma patch_fields_keeps_id_deleted body : forall item,
  Item.id (snd (patch_fields body item)) = Item.id item /\
  Item.deleted (snd (patch_fields body item)) = Item.deleted item.
Proof.
  induction body as [|[key v] body IH]; intros item; simpl; [now split|].
  destruct (is_allowed key); [|now split].
  destruct (IH (setattr item key v)) as [-> ->].
  apply setattr_keeps_id_deleted.
Qed.

Lemma patch_fields_rejects body : forall item,
  (exists key v, In (key, v) body /\ is_allowed key = false) ->
  fst (patch_fields body item) = Raise UnprocessableEntity.
Proof.
  induction body as [|[key v] body IH]; intros item (key' & v' & HIn & Hbad).
  - destruct HIn.
  - simpl. destruct (is_allowed key) eqn:E; [|reflexivity].
    apply IH. destruct HIn as [H|H]; [|eauto].
    inversion H; subst. congruence.
Qed.

(** ** Ids *)

Section IdFacts.
Context {V : Type}.
Implicit Types (d : Dict.t V) (k : Z) (v : V).

Lemma in_upto k n : In k (map Z.of_nat (seq 1 n)) <-> 1 <= k <= Z.of_nat n.
Proof.
  rewrite in_map_iff. split.
  - intros (i & <- & Hi). apply in_seq in Hi. lia.
  - intros H. exists (Z.to_nat k). split; [lia|]. apply in_seq. lia.
Qed.

Lemma sequential_get_None d k :
  sequential d -> (Dict.get k d = None <-> k < 1 \/ Dict.len d < k).
Proof.
  intros S. rewrite get_None_keys, S, in_upto. unfold Dict.len. lia.
Qed.

Lemma sequential_fresh d : sequential d -> Dict.get (Dict.len d + 1) d = None.
Proof. intros S. apply sequential_get_None; auto. lia. Qed.

Lemma sequential_NoDup d : sequential d -> Dict.wf d.
Proof.
  unfold Dict.wf. intros ->.
  apply Injective_map_NoDup; [|apply seq_NoDup].
  intros a b. apply Nat2Z.inj.
Qed.

Lemma sequential_set_present d k v v0 :
  sequential d -> Dict.get k d = Some v0 -> sequential (Dict.set k v d).
Proof.
  unfold sequential. intros S H.
  rewrite (keys_set_present _ _ _ _ H), S.
  f_equal. f_equal.
  rewrite <- (length_map fst (Dict.set k v d)), <- (length_map fst d).
  fold (Dict.keys (Dict.set k v d)). now rewrite (keys_set_present _ _ _ _ H).
Qed.

Lemma sequential_set_next d v :
  sequential d -> sequential (Dict.set (Dict.len d + 1) v d).
Proof.
  intros S. rewrite (set_absent _ _ _ (sequential_fresh _ S)).
  unfold sequential, Dict.keys in *.
  rewrite map_app, length_app, S. simpl.
  rewrite Nat.add_1_r, seq_S, map_app. simpl.
  unfold Dict.len. do 2 f_equal. lia.
Qed.

Lemma len_set_next d v :
  sequential d -> Dict.len (Dict.set (Dict.len d + 1) v d) = Dict.len d + 1.
Proof.
  intros S. rewrite (set_absent _ _ _ (sequential_fresh _ S)).
  unfold Dict.len. rewrite length_app. simpl. lia.
Qed.

Lemma keyed_set (id_of : V -> Z) d k v :
  keyed id_of d -> id_of v = k -> keyed id_of (Dict.set k v d).
Proof.
  intros K Hv k' v' H. destruct (Z.eq_dec k' k) as [->|N].
  - rewrite get_set_same in H. congruence.
  - rewrite get_set_other in H by assumption. now apply K.
Qed.

Lemma wf_in_get d k v : Dict.wf d -> In (k, v) d -> Dict.get k d = Some v.
Proof.
  unfold Dict.wf, Dict.keys.
  induction d as [|[k' v'] d IH]; simpl; intros ND HIn; [destruct HIn|].
  inversion ND as [|? ? Hnotin ND']; subst.
  destruct HIn as [E|HIn].
  - inversion E; subst. now rewrite Z.eqb_refl.
  - destruct (k =? k') eqn:E; [|now apply IH].
    apply Z.eqb_eq in E. subst k'. exfalso. apply Hnotin.
    change k with (fst (k, v)). now apply in_map.
Qed.

Lemma keyed_ids (id_of : V -> Z) d :
  Dict.wf d -> keyed id_of d -> map id_of (Dict.values d) = Dict.keys d.
Proof.
  intros W K. unfold Dict.values, Dict.keys. rewrite map_map.
  apply map_ext_in. intros [k v] HIn. simpl. apply K. now apply wf_in_get.
Qed.

End IdFacts.

Lemma patch_item_get id body st item :
  Dict.get id (items_db st) = Some item ->
  Item.deleted item = false ->
  snd (patch_item id body st) =
    with_items (Dict.set id (snd (patch_fields body item)) (items_db st)) st /\
  fst (patch_item id body st) =
    (_ <- fst (patch_fields body item) ;; Return (snd (patch_fields body item))).
Proof.
  intros Hget Hdel. unfold patch_item. rewrite Hget, Hdel.
  now destruct (patch_fields body item).
Qed.

Lemma handle_store_inv req st : store_inv st -> store_inv (handle req st).
Proof.
  intros [SI SC KI KC].
  destruct req; simpl; try (now split).
  - (* create_item *)
    split; simpl; auto using sequential_set_next.
    now apply keyed_set.
  - (* get_item *)
    unfold get_item. destruct (Dict.get id (items_db st)) as [item|]; [|now split].
    destruct (Item.deleted item); now split.
  - (* update_item *)
    unfold update_item.
    destruct (Dict.contains id (items_db st)) eqn:C; simpl; [|now split].
    apply contains_get in C. destruct C as [old Hold].
    split; simpl; eauto using sequential_set_present.
    now apply keyed_set.
  - (* patch_item *)
    destruct (Dict.get id (items_db st)) as [item|] eqn:Hget;
      [|unfold patch_item; rewrite Hget; now split].
    destruct (Item.deleted item) eqn:Hdel;
      [unfold patch_item; rewrite Hget, Hdel; now split|].
    destruct (patch_item_get id body st item Hget Hdel) as [-> _].
    split; simpl; eauto using sequential_set_present.
    apply keyed_set; auto.
    destruct (patch_fields_keeps_id_deleted body item) as [-> _]. now apply KI.
  - (* delete_item *)
    unfold delete_item. destruct (Dict.get id (items_db st)) as [item|] eqn:Hget; [|now split].
    split; simpl; eauto using sequential_set_present.
    apply keyed_set; auto. simpl. now apply KI.
  - (* create_cart *)
    split; simpl; auto using sequential_set_next.
    now apply keyed_set.
  - (* get_cart *)
    unfold get_cart. destruct (Dict.get id (carts_db st)); now split.
  - (* add_to_cart *)
    unfold add_to_cart.
    destruct (Dict.get cart_id (carts_db st)) as [cart|] eqn:Hc; [|now split].
    destruct (Dict.get item_id (items_db st)) as [item|]; [|now split].
    destruct (Item.deleted item); [now split|].
    destruct (float_add _ _); split; simpl; eauto using sequential_set_present;
      apply keyed_set; auto; simpl; now apply KC.
Qed.

Lemma reachable_store_inv P st : reachable_by P st -> store_inv st.
Proof.
  induction 1 as [|req st _ IH _].
  - split; try reflexivity; intros k v H; discriminate.
  - now apply handle_store_inv.
Qed.

(** ** No handler removes an entry from a store *)

Lemma len_set_le {V : Type} (k : Z) (v : V) (d : Dict.t V) :
  Dict.len d <= Dict.len (Dict.set k v d).
Proof.
  unfold Dict.len. induction d as [|[k' v'] d IH]; simpl; [lia|].
  destruct (k =? k'); simpl; lia.
Qed.

Lemma contains_set {V : Type} (k k' : Z) (v : V) (d : Dict.t V) :
  Dict.contains k' d = true -> Dict.contains k' (Dict.set k v d) = true.
Proof.
  unfold Dict.contains. destruct (Z.eq_dec k' k) as [->|N].
  - now rewrite get_set_same.
  - now rewrite get_set_other.
Qed.

Lemma grows_refl {V : Type} (d : Dict.t V) : grows d d.
Proof. split; [lia|auto]. Qed.

Lemma grows_set {V : Type} (k : Z) (v : V) (d : Dict.t V) : grows d (Dict.set k v d).
Proof. split; [apply len_set_le|intros k'; apply contains_set]. Qed.

Lemma grows_trans {V : Type} (d1 d2 d3 : Dict.t V) :
  grows d1 d2 -> grows d2 d3 -> grows d1 d3.
Proof. intros [L1 C1] [L2 C2]. split; [lia|auto]. Qed.

Lemma handle_grows req st :
  grows (items_db st) (items_db (handle req st)) /\
  grows (carts_db st) (carts_db (handle req st)).
Proof.
  destruct req; simpl; auto using grows_refl, grows_set.
  - unfold get_item. destruct (Dict.get id (items_db st)) as [item|];
      [destruct (Item.deleted item)|]; auto using grows_refl.
  - unfold update_item. destruct (Dict.contains id (items_db st));
      simpl; auto using grows_refl, grows_set.
  - unfold patch_item. destruct (Dict.get id (items_db st)) as [item|];
      [destruct (Item.deleted item)|]; auto using grows_refl.
    destruct (patch_fields body item). simpl. auto using grows_refl, grows_set.
  - unfold delete_item. destruct (Dict.get id (items_db st));
      simpl; auto using grows_refl, grows_set.
  - unfold get_cart. destruct (Dict.get id (carts_db st)); auto using grows_refl.
  - unfold add_to_cart.
    destruct (Dict.get cart_id (carts_db st)) as [cart|]; auto using grows_refl.
    destruct (Dict.get item_id (items_db st)) as [item|]; auto using grows_refl.
    destruct (Item.deleted item); auto using grows_refl.
    destruct (float_add _ _); simpl; auto using grows_refl, grows_set.
Qed.

Lemma run_grows reqs : forall st,
  grows (items_db st) (items_db (run reqs st)) /\
  grows (carts_db st) (carts_db (run reqs st)).
Proof.
  induction reqs as [|req reqs IH]; intros st; simpl; auto using grows_refl.
  destruct (handle_grows req st), (IH (handle req st)).
  split; eapply grows_trans; eauto.
Qed.

Lemma create_item_outcome item st :
  fst (create_item item st) =
    let n := Dict.len (items_db st) + 1 in
    if PyFloat.is_finite (ItemPost.price item)
    then Return {| content := (n, VStr (ItemPost.name item), VFloat (ItemPost.price item));
                   status_code := HTTP_201_CREATED;
                   location := ("/item/", n) |}
    else Raise ValueError.
Proof.
  unfold create_item. simpl.
  destruct (PyFloat.is_finite (ItemPost.price item)); reflexivity.
Qed.

(** C4: in every state reachable from the empty stores by any sequence of
    requests, the ids of the stored items are pairwise distinct and so are
    the ids of the stored carts; a create stores its entry under the count of
    existing entries plus one, an id no stored entry carries, and that is the
    id it reports ([create_item] reports it when it returns: it raises
    ValueError, with the item stored all the same, when the price is not
    finite); no request removes an entry, and no later create assigns or
    reports that id again. *)
Theorem ids_unique_and_never_reused (st : state) :
  reachable st ->
  NoDup (map Item.id (Dict.values (items_db st))) /\
  NoDup (map Cart.id (Dict.values (carts_db st))) /\
  Dict.wf (items_db st) /\
  Dict.wf (carts_db st) /\
  (forall item,
     let n := Dict.len (items_db st) + 1 in
     let st1 := snd (create_item item st) in
     created_id item_content_id (create_item item st) =
       (if PyFloat.is_finite (ItemPost.price item) then Some n else None) /\
     ~ In n (map Item.id (Dict.values (items_db st))) /\
     items_db st1 =
       items_db st ++ [(n, Item.new n (ItemPost.name item) (ItemPost.price item))] /\
     forall reqs item',
       Dict.len (items_db (run reqs st1)) + 1 <> n /\
       created_id item_content_id (create_item item' (run reqs st1)) <> Some n) /\
  (let n := Dict.len (carts_db st) + 1 in
   let st1 := snd (create_cart st) in
   created_id cart_content_id (create_cart st) = Some n /\
   ~ In n (map Cart.id (Dict.values (carts_db st))) /\
   carts_db st1 = carts_db st ++ [(n, Cart.new n)] /\
   forall reqs,
     Dict.len (carts_db (run reqs st1)) + 1 <> n /\
     created_id cart_content_id (create_cart (run reqs st1)) <> Some n) /\
  (forall req,
     grows (items_db st) (items_db (handle req st)) /\
     grows (carts_db st) (carts_db (handle req st))).
Proof.
  intros R. destruct (reachable_store_inv _ _ R) as [SI SC KI KC].
  pose proof (sequential_NoDup _ SI) as WI.
  pose proof (sequential_NoDup _ SC) as WC.
  pose proof (keyed_ids _ _ WI KI) as EI.
  pose proof (keyed_ids _ _ WC KC) as EC.
  split; [now rewrite EI|]. split; [now rewrite EC|].
  split; [exact WI|]. split; [exact WC|].
  split; [|split; [|intros req; apply handle_grows]].
  - intros item n st1.
    assert (Later : forall reqs, Dict.len (items_db (run reqs st1)) + 1 <> n).
    { assert (E1 : Dict.len (items_db st1) = n) by (apply (len_set_next _ _ SI)).
      intros reqs. destruct (run_grows reqs st1) as [[L _] _]. lia. }
    split; [|split; [|split; [|split]]].
    + unfold created_id. rewrite create_item_outcome. cbv zeta.
      destruct (PyFloat.is_finite (ItemPost.price item)); reflexivity.
    + rewrite EI. apply get_None_keys. now apply sequential_fresh.
    + subst st1 n. simpl. now apply set_absent, sequential_fresh.
    + apply Later.
    + unfold created_id. rewrite create_item_outcome. cbv zeta.
      destruct (PyFloat.is_finite (ItemPost.price item')); [|discriminate].
      unfold item_content_id. simpl. intros E. injection E as E'.
      now apply (Later reqs).
  - intros n st1.
    assert (Later : forall reqs, Dict.len (carts_db (run reqs st1)) + 1 <> n).
    { assert (E1 : Dict.len (carts_db st1) = n) by (apply (len_set_next _ _ SC)).
      intros reqs. destruct (run_grows reqs st1) as [_ [L _]]. lia. }
    split; [reflexivity|]. split; [|split; [|split]].
    + rewrite EC. apply get_None_keys. now apply sequential_fresh.
    + subst st1 n. simpl. now apply set_absent, sequential_fresh.
    + apply Later.
    + unfold created_id. simpl. unfold cart_content_id.
      intros E. injection E as E'. now apply (Later reqs).
Qed.

Lemma run_reachable_by P reqs : forall st,
  reachable_by P st -> forallb P reqs = true -> reachable_by P (run reqs st).
Proof.
  induction reqs as [|req reqs IH]; intros st R F; simpl in *; [exact R|].
  apply andb_prop in F. destruct F as [Hreq F].
  apply IH; [|exact F]. now apply reachable_handle.
Qed.

Lemma run_reachable reqs : reachable (run reqs empty_state).
Proof.
  apply run_reachable_by; [apply reachable_empty|].
  induction reqs; simpl; auto.
Qed.

Lemma ids_unique_and_never_reused_witness :
  reachable shop /\
  NoDup (map Item.id (Dict.values (items_db shop))) /\
  NoDup (map Cart.id (Dict.values (carts_db shop))).
Proof.
  pose proof (ids_unique_and_never_reused shop (run_reachable _)) as H.
  split; [apply run_reachable|]. split; apply H.
Defined.

(** ** PartialUpdate *)

(** C10: for every stored item that is not soft-deleted, [patch_item] with
    an empty body raises nothing: it returns the item as it is stored, with
    its name, price and deleted flag, and the stores are what they were. *)
Theorem patch_item_empty_body (st : state) (id : Z) (item : Item.t) :
  Dict.get id (items_db st) = Some item ->
  Item.deleted item = false ->
  patch_item id [] st = (Return item, st).
Proof.
  intros Hget Hdel. unfold patch_item. rewrite Hget, Hdel. simpl.
  rewrite (set_get_same _ _ _ Hget). now destruct st.
Qed.

Lemma patch_item_empty_body_witness :
  Dict.get 1 (items_db shop) = Some pen_item /\
  Item.deleted pen_item = false /\
  patch_item 1 [] shop = (Return pen_item, shop).
Proof.
  split; [reflexivity|]. split; [reflexivity|].
  apply (patch_item_empty_body shop 1 pen_item); reflexivity.
Defined.

(** C1, as the code has it: for every stored item and every body with at
    least one key outside name and price, [patch_item] raises: NotModified,
    leaving the stores as they were, when the item is soft-deleted, and
    UnprocessableEntity when it is not.  In both cases the item keeps its id
    and its deleted flag, and every other item, the order of the items and
    the carts are what they were. *)
Theorem patch_item_unknown_key (st : state) (id : Z)
  (body : list (string * value)) (item : Item.t) :
  Dict.get id (items_db st) = Some item ->
  (exists key v, In (key, v) body /\ is_allowed key = false) ->
  let st' := snd (patch_item id body st) in
  fst (patch_item id body st) =
    Raise (if Item.deleted item then NotModified else UnprocessableEntity) /\
  (Item.deleted item = true -> st' = st) /\
  (exists item',
     Dict.get id (items_db st') = Some item' /\
     Item.id item' = Item.id item /\
     Item.deleted item' = Item.deleted item) /\
  (forall k, k <> id -> Dict.get k (items_db st') = Dict.get k (items_db st)) /\
  Dict.keys (items_db st') = Dict.keys (items_db st) /\
  carts_db st' = carts_db st.
Proof.
  intros Hget Hbad st'. subst st'.
  destruct (Item.deleted item) eqn:Hdel.
  - unfold patch_item. rewrite Hget, Hdel. simpl.
    repeat split; eauto.
  - destruct (patch_item_get id body st item Hget Hdel) as [-> ->].
    rewrite (patch_fields_rejects body item Hbad). simpl.
    split; [reflexivity|]. split; [discriminate|].
    split; [|split; [|split]].
    + exists (snd (patch_fields body item)). rewrite get_set_same.
      destruct (patch_fields_keeps_id_deleted body item) as [-> ->]. auto.
    + intros k N. now apply get_set_other.
    + eapply keys_set_present; eauto.
    + reflexivity.
Qed.

Lemma patch_item_unknown_key_witness :
  Dict.get 1 (items_db shop) = Some pen_item /\
  is_allowed "colour" = false /\
  fst (patch_item 1 colour_body shop) = Raise UnprocessableEntity.
Proof.
  split; [reflexivity|]. split; [reflexivity|].
  apply (patch_item_unknown_key shop 1 colour_body pen_item); [reflexivity|].
  exists "colour", (VStr "blue"). split; [left|]; reflexivity.
Defined.

(** C1 fails as stated, twice over.  On a soft-deleted item the body with an
    unknown key is answered with NotModified, not UnprocessableEntity.  On an
    active item, a name that comes before the unknown key in the body is
    stored before the handler raises. *)
Lemma patch_item_unknown_key_counterexample :
  (Dict.get 1 (items_db (handle (DeleteItem 1) shop))
     = Some (Item.set_deleted true pen_item) /\
   is_allowed "colour" = false /\
   fst (patch_item 1 colour_body (handle (DeleteItem 1) shop)) = Raise NotModified /\
   NotModified <> UnprocessableEntity) /\
  (Dict.get 1 (items_db shop) = Some pen_item /\
   fst (patch_item 1 ink_body shop) = Raise UnprocessableEntity /\
   Dict.get 1 (items_db (snd (patch_item 1 ink_body shop)))
     = Some (Item.set_name (VStr "ink") pen_item) /\
   snd (patch_item 1 ink_body shop) <> shop).
Proof.
  repeat split; try reflexivity; discriminate.
Qed.

(** ** Replace and SoftDelete *)

(** In a reachable state the ids that were assigned are 1, ..., [len]: an
    id is absent from the item store exactly when no create assigned it. *)
Lemma reachable_absent_item st id :
  reachable st ->
  (Dict.get id (items_db st) = None <-> id < 1 \/ Dict.len (items_db st) < id).
Proof.
  intros R. apply sequential_get_None.
  now destruct (reachable_store_inv _ _ R).
Qed.

(** C6: for every id in the item store, whether its item is active or
    soft-deleted, [update_item] stores a fresh record with the given name
    and price and with deleted false, so that [get_item] returns it
    afterwards; nothing else in the stores changes.  [update_item] raises
    NotFound exactly when the id is not in the store, which in a reachable
    state is exactly when no create assigned it. *)
Theorem update_item_replaces (st : state) (id : Z) (item : ItemPost.t) :
  let new_item :=
    {| Item.id := id;
       Item.name := VStr (ItemPost.name item);
       Item.price := VFloat (ItemPost.price item);
       Item.deleted := false |} in
  let st' := snd (update_item id item st) in
  (forall old, Dict.get id (items_db st) = Some old ->
     fst (update_item id item st) = Return new_item /\
     Dict.get id (items_db st') = Some new_item /\
     get_item id st' = (Return new_item, st') /\
     (forall k, k <> id -> Dict.get k (items_db st') = Dict.get k (items_db st)) /\
     Dict.keys (items_db st') = Dict.keys (items_db st) /\
     carts_db st' = carts_db st) /\
  (fst (update_item id item st) = Raise NotFound <->
     Dict.get id (items_db st) = None) /\
  (Dict.get id (items_db st) = None -> st' = st) /\
  (reachable st ->
     (fst (update_item id item st) = Raise NotFound <->
        id < 1 \/ Dict.len (items_db st) < id)).
Proof.
  intros new_item st'. subst st'.
  assert (Hiff : fst (update_item id item st) = Raise NotFound <->
                 Dict.get id (items_db st) = None).
  { unfold update_item, Dict.contains.
    destruct (Dict.get id (items_db st)); simpl; split; congruence. }
  split; [|split; [exact Hiff|split]].
  - intros old Hold. unfold update_item, Dict.contains. rewrite Hold. simpl.
    fold new_item. unfold Item.new. fold new_item.
    repeat split.
    + apply get_set_same.
    + unfold get_item. simpl. now rewrite get_set_same.
    + intros k N. now apply get_set_other.
    + eapply keys_set_present; eauto.
  - intros Hnone. unfold update_item, Dict.contains. now rewrite Hnone.
  - intros R. rewrite Hiff. now apply reachable_absent_item.
Qed.

(** Replace brings a soft-deleted pen back. *)
Lemma update_item_replaces_witness :
  let st := handle (DeleteItem 1) shop in
  get_item 1 st = (Raise NotFound, st) /\
  fst (get_item 1 (snd (update_item 1 pen st))) = Return pen_item.
Proof.
  split; [reflexivity|].
  destruct (update_item_replaces (handle (DeleteItem 1) shop) 1 pen) as [H _].
  destruct (H (Item.set_deleted true pen_item) eq_refl) as (_ & _ & -> & _).
  reflexivity.
Defined.

Lemma delete_item_present st id item :
  Dict.get id (items_db st) = Some item ->
  delete_item id st =
    (Return "Item marked as deleted",
     with_items (Dict.set id (Item.set_deleted true item) (items_db st)) st).
Proof. intros H. unfold delete_item. now rewrite H. Qed.

(** C8: for every id in the item store, [delete_item] returns, and calling
    it a second time returns and leaves the state the first call left: the
    item with deleted true and its id, name and price as they were, and
    everything else in the stores as it was.  [delete_item] raises NotFound
    exactly when the id is not in the store, which in a reachable state is
    exactly when no create assigned it. *)
Theorem delete_item_idempotent (st : state) (id : Z) :
  let st1 := snd (delete_item id st) in
  let st2 := snd (delete_item id st1) in
  (forall item, Dict.get id (items_db st) = Some item ->
     fst (delete_item id st) = Return "Item marked as deleted" /\
     fst (delete_item id st1) = Return "Item marked as deleted" /\
     st2 = st1 /\
     Dict.get id (items_db st1) =
       Some {| Item.id := Item.id item;
               Item.name := Item.name item;
               Item.price := Item.price item;
               Item.deleted := true |} /\
     (forall k, k <> id -> Dict.get k (items_db st1) = Dict.get k (items_db st)) /\
     Dict.keys (items_db st1) = Dict.keys (items_db st) /\
     carts_db st1 = carts_db st) /\
  (fst (delete_item id st) = Raise NotFound <->
     Dict.get id (items_db st) = None) /\
  (Dict.get id (items_db st) = None -> st1 = st) /\
  (reachable st ->
     (fst (delete_item id st) = Raise NotFound <->
        id < 1 \/ Dict.len (items_db st) < id)).
Proof.
  intros st1 st2. subst st1 st2.
  assert (Hiff : fst (delete_item id st) = Raise NotFound <->
                 Dict.get id (items_db st) = None).
  { unfold delete_item.
    destruct (Dict.get id (items_db st)); simpl; split; congruence. }
  split; [|split; [exact Hiff|split]].
  - intros item Hget.
    rewrite (delete_item_present st id item Hget). simpl.
    erewrite delete_item_present by (simpl; apply get_set_same). simpl.
    repeat split.
    + unfold with_items. simpl. now rewrite set_set.
    + apply get_set_same.
    + intros k N. now apply get_set_other.
    + eapply keys_set_present; eauto.
  - intros Hnone. unfold delete_item. now rewrite Hnone.
  - intros R. rewrite Hiff. now apply reachable_absent_item.
Qed.

Lemma delete_item_idempotent_witness :
  Dict.get 1 (items_db shop) = Some pen_item /\
  snd (delete_item 1 (snd (delete_item 1 shop))) = snd (delete_item 1 shop) /\
  Dict.get 1 (items_db (snd (delete_item 1 shop))) = Some (Item.set_deleted true pen_item).
Proof.
  split; [reflexivity|].
  destruct (delete_item_idempotent shop 1) as [H _].
  destruct (H pen_item eq_refl) as (_ & _ & H2 & H3 & _).
  split; [exact H2|exact H3].
Defined.

(** ** Item List *)

Lemma slice_window {A : Type} (l : list A) (offset limit : Z) :
  0 <= offset -> 0 < limit ->
  slice l offset (offset + limit) = window offset limit l.
Proof.
  intros Ho Hl. unfold slice, window, slice_index.
  destruct (offset <? 0) eqn:E1; [apply Z.ltb_lt in E1; lia|].
  destruct (offset + limit <? 0) eqn:E2; [apply Z.ltb_lt in E2; lia|].
  set (len := Z.of_nat (length l)).
  destruct (Z.le_gt_cases len offset) as [Hge|Hlt].
  - rewrite (Z.min_r offset len) by lia. rewrite (Z.min_r (offset + limit) len) by lia.
    rewrite Z.sub_diag. simpl.
    rewrite (skipn_all2 l) by (subst len; lia). now rewrite firstn_nil.
  - rewrite (Z.min_l offset len) by lia.
    destruct (Z.le_gt_cases (offset + limit) len) as [Hin|Hout].
    + rewrite Z.min_l by lia. f_equal. lia.
    + rewrite Z.min_r by lia.
      assert (Hlen : length (skipn (Z.to_nat offset) l) = Z.to_nat (len - offset)).
      { rewrite length_skipn. subst len. lia. }
      rewrite !firstn_all2; auto; rewrite Hlen; lia.
Qed.

Lemma item_filter_passes lo hi show_deleted item :
  is_number (Item.price item) = true ->
  item_filter lo hi show_deleted item = Return (item_passes lo hi show_deleted item).
Proof.
  unfold item_filter, item_passes, at_least, at_most, value_ge, value_le.
  destruct (show_deleted || negb (Item.deleted item)); simpl; [|reflexivity].
  destruct (Item.price item); try discriminate; intros _;
    destruct lo as [lo|]; destruct hi as [hi|]; simpl;
    try match goal with |- context [if ?c then _ else _] => destruct c end;
    reflexivity.
Qed.

Lemma comprehension_filter {A : Type} (keep : A -> outcome bool) (p : A -> bool)
  (l : list A) :
  (forall x, In x l -> keep x = Return (p x)) ->
  comprehension keep l = Return (filter p l).
Proof.
  induction l as [|x l IH]; intros H; simpl; [reflexivity|].
  rewrite (H x) by (now left). simpl.
  rewrite IH by (intros y Hy; apply H; now right). simpl.
  reflexivity.
Qed.

Lemma comprehension_sound {A : Type} (keep : A -> outcome bool) (l : list A) :
  forall r, comprehension keep l = Return r ->
  forall x, In x r -> In x l /\ keep x = Return true.
Proof.
  induction l as [|y l IH]; simpl; intros r H x Hx.
  - injection H as <-. destruct Hx.
  - destruct (keep y) as [b|] eqn:Ey; simpl in H; [|discriminate].
    destruct (comprehension keep l) as [r'|]; simpl in H; [|discriminate].
    injection H as <-. specialize (IH r' eq_refl).
    destruct b.
    + destruct Hx as [<-|Hx]; [auto|]. destruct (IH x Hx). auto.
    + destruct (IH x Hx). auto.
Qed.

Lemma window_incl {A : Type} (offset limit : Z) (l : list A) x :
  In x (window offset limit l) -> In x l.
Proof.
  unfold window. intros H.
  rewrite <- (firstn_skipn (Z.to_nat offset) l). apply in_or_app. right.
  rewrite <- (firstn_skipn (Z.to_nat limit) (skipn (Z.to_nat offset) l)).
  apply in_or_app. now left.
Qed.

Lemma get_item_list_spec st offset limit lo hi show_deleted :
  0 <= offset -> 0 < limit -> prices_numeric st ->
  get_item_list offset limit lo hi show_deleted st =
    (Return (item_list_spec offset limit lo hi show_deleted st), st).
Proof.
  intros Ho Hl N. unfold get_item_list, item_list_spec.
  rewrite slice_window by assumption. f_equal.
  apply comprehension_filter. intros item HIn.
  apply item_filter_passes, N. eapply window_incl, HIn.
Qed.

Lemma filter_all {A : Type} (p : A -> bool) (l : list A) :
  forallb p l = true -> filter p l = l.
Proof.
  induction l as [|x l IH]; simpl; [reflexivity|].
  intros H. apply andb_prop in H. destruct H as [-> H]. now rewrite IH.
Qed.

Lemma reachable_creation_order st :
  reachable st ->
  map Item.id (Dict.values (items_db st)) =
    map Z.of_nat (seq 1 (length (Dict.values (items_db st)))).
Proof.
  intros R. destruct (reachable_store_inv _ _ R) as [SI _ KI _].
  rewrite (keyed_ids _ _ (sequential_NoDup _ SI) KI).
  unfold Dict.values. rewrite length_map. exact SI.
Qed.

Lemma item_filter_sound lo hi show_deleted item b :
  item_filter lo hi show_deleted item = Return b ->
  b = item_passes lo hi show_deleted item.
Proof.
  unfold item_filter, item_passes, at_least, at_most, value_ge, value_le.
  destruct (show_deleted || negb (Item.deleted item)); simpl;
    [|intros H; now injection H as <-].
  destruct (Item.price item); destruct lo as [lo|]; destruct hi as [hi|]; simpl;
    try discriminate;
    try match goal with |- context [if ?c then _ else _] => destruct c end;
    simpl; intros H; now injection H as <-.
Qed.

Lemma item_filter_unbounded show_deleted item :
  item_filter None None show_deleted item =
    Return (item_passes None None show_deleted item).
Proof.
  unfold item_filter, item_passes. simpl.
  destruct (show_deleted || negb (Item.deleted item)); reflexivity.
Qed.

Lemma comprehension_determined {A : Type} (keep : A -> outcome bool)
  (p : A -> bool) (l : list A) :
  (forall x b, keep x = Return b -> b = p x) ->
  forall r, comprehension keep l = Return r -> r = filter p l.
Proof.
  intros K. induction l as [|x l IH]; simpl; intros r H.
  - now injection H as <-.
  - destruct (keep x) as [b|] eqn:Ex; simpl in H; [|discriminate].
    destruct (comprehension keep l) as [r'|]; simpl in H; [|discriminate].
    injection H as <-. rewrite <- (K x b Ex), (IH r' eq_refl). reflexivity.
Qed.

Lemma get_item_list_sound st offset limit lo hi show_deleted l :
  0 <= offset -> 0 < limit ->
  fst (get_item_list offset limit lo hi show_deleted st) = Return l ->
  l = item_list_spec offset limit lo hi show_deleted st.
Proof.
  intros Ho Hl H. unfold get_item_list in H. cbn [fst] in H.
  rewrite slice_window in H by assumption.
  apply (comprehension_determined _ _ _ (item_filter_sound _ _ _) _ H).
Qed.

Lemma get_item_list_returns st offset limit lo hi show_deleted :
  0 <= offset -> 0 < limit ->
  prices_numeric st \/ (lo = None /\ hi = None) ->
  get_item_list offset limit lo hi show_deleted st =
    (Return (item_list_spec offset limit lo hi show_deleted st), st).
Proof.
  intros Ho Hl [N|[-> ->]]; [now apply get_item_list_spec|].
  unfold get_item_list, item_list_spec. rewrite slice_window by assumption.
  f_equal. apply comprehension_filter. intros item _. apply item_filter_unbounded.
Qed.

(** C3: for every store, every offset >= 0 and every limit > 0, what
    [get_item_list] returns is exactly the window [[offset, offset+limit)] of
    all stored items, soft-deleted ones included, filtered by show_deleted
    and the two inclusive, optional price bounds; it does return when the
    stored prices are numbers, or when no price bound is given, and it leaves
    the stores as they were.  In a reachable state the stored items are in
    the order of their creation (ids 1, 2, ...).  In particular, on a store
    of 3 items offset 0 and limit 10 give all 3 (with show_deleted, or when
    none is soft-deleted), and offset 5 and limit 10 give the empty list. *)
Theorem get_item_list_slice_then_filter (st : state) (offset limit : Z)
  (min_price max_price : option PyFloat.t) (show_deleted : bool) :
  0 <= offset -> 0 < limit ->
  (forall l,
     fst (get_item_list offset limit min_price max_price show_deleted st) = Return l ->
     l = item_list_spec offset limit min_price max_price show_deleted st) /\
  (prices_numeric st \/ (min_price = None /\ max_price = None) ->
   get_item_list offset limit min_price max_price show_deleted st =
     (Return (item_list_spec offset limit min_price max_price show_deleted st), st)) /\
  snd (get_item_list offset limit min_price max_price show_deleted st) = st /\
  (reachable st ->
     map Item.id (Dict.values (items_db st)) =
       map Z.of_nat (seq 1 (length (Dict.values (items_db st))))) /\
  (length (Dict.values (items_db st)) = 3%nat ->
     fst (get_item_list 0 10 None None true st) = Return (Dict.values (items_db st)) /\
     (forallb (fun item => negb (Item.deleted item)) (Dict.values (items_db st)) = true ->
      fst (get_item_list 0 10 None None false st) = Return (Dict.values (items_db st))) /\
     (forall lo hi show, fst (get_item_list 5 10 lo hi show st) = Return [])).
Proof.
  intros Ho Hl. split; [|split; [|split; [reflexivity|split]]].
  - intros l. now apply get_item_list_sound.
  - now apply get_item_list_returns.
  - apply reachable_creation_order.
  - intros H3.
    assert (W0 : window 0 10 (Dict.values (items_db st)) = Dict.values (items_db st)).
    { unfold window. rewrite firstn_all2; [reflexivity|].
      rewrite length_skipn, H3. lia. }
    assert (W5 : window 5 10 (Dict.values (items_db st)) = []).
    { unfold window. rewrite skipn_all2; [apply firstn_nil|]. rewrite H3. lia. }
    assert (E0 : forall show,
               fst (get_item_list 0 10 None None show st) =
               Return (filter (item_passes None None show) (Dict.values (items_db st)))).
    { intros show. unfold get_item_list. cbn [fst].
      rewrite slice_window, W0 by lia.
      apply comprehension_filter. intros item _. apply item_filter_unbounded. }
    repeat split.
    + rewrite E0. f_equal. apply filter_all. apply forallb_forall. reflexivity.
    + intros Hactive. rewrite E0. f_equal. apply filter_all.
      rewrite forallb_forall in Hactive |- *. intros item HIn.
      unfold item_passes. simpl. now rewrite (Hactive item HIn).
    + intros lo hi show. unfold get_item_list. cbn [fst].
      rewrite slice_window, W5 by lia. reflexivity.
Qed.

Lemma catalogue_numeric : prices_numeric catalogue.
Proof.
  intros item [<-|[<-|[<-|[]]]]; reflexivity.
Qed.

Lemma get_item_list_slice_then_filter_witness :
  prices_numeric catalogue /\
  fst (get_item_list 1 2 (Some (PyFloat.of_Z 5)) None false catalogue) =
    Return [Item.new 3 "desk" (PyFloat.of_Z 10)] /\
  fst (get_item_list 5 10 None None true catalogue) = Return [].
Proof.
  split; [exact catalogue_numeric|].
  assert (H1 : 0 <= 1) by lia. assert (H2 : 0 < 2) by lia.
  pose proof (get_item_list_slice_then_filter catalogue 1 2
                (Some (PyFloat.of_Z 5)) None false H1 H2) as H.
  destruct H as (_ & E & _ & _ & P). split.
  - rewrite (E (or_introl catalogue_numeric)). reflexivity.
  - apply (P eq_refl).
Defined.

(** ** Soft-deleted items *)

(** C7: an item stored with its deleted flag set, which is what
    [delete_item] leaves, is not found by [get_item]; a listing with
    show_deleted false never holds it; a listing with show_deleted true holds
    it exactly when it is in the window and within the price bounds; and the
    listing does return, with either flag, when the stored prices are numbers
    or no price bound is given. *)
Theorem soft_deleted_item_hidden (st : state) (id : Z) (item : Item.t) :
  Dict.get id (items_db st) = Some item ->
  Item.deleted item = true ->
  get_item id st = (Raise NotFound, st) /\
  (forall offset limit lo hi l,
     fst (get_item_list offset limit lo hi false st) = Return l -> ~ In item l) /\
  (forall offset limit lo hi l,
     0 <= offset -> 0 < limit ->
     fst (get_item_list offset limit lo hi true st) = Return l ->
     (In item l <->
        In item (window offset limit (Dict.values (items_db st))) /\
        at_least lo (Item.price item) = true /\
        at_most hi (Item.price item) = true)) /\
  (forall offset limit lo hi show_deleted,
     0 <= offset -> 0 < limit ->
     prices_numeric st \/ (lo = None /\ hi = None) ->
     exists l, fst (get_item_list offset limit lo hi show_deleted st) = Return l).
Proof.
  intros Hget Hdel. split; [|split; [|split]].
  - unfold get_item. now rewrite Hget, Hdel.
  - intros offset limit lo hi l H HIn. simpl in H.
    destruct (comprehension_sound _ _ _ H item HIn) as [_ K].
    unfold item_filter in K. rewrite Hdel in K. simpl in K. discriminate.
  - intros offset limit lo hi l Ho Hl H.
    rewrite (get_item_list_sound _ _ _ _ _ _ _ Ho Hl H).
    unfold item_list_spec. rewrite filter_In. unfold item_passes. simpl.
    rewrite andb_true_iff. tauto.
  - intros offset limit lo hi show_deleted Ho Hl N.
    rewrite (get_item_list_returns _ _ _ _ _ _ Ho Hl N). eexists. reflexivity.
Qed.

Lemma soft_deleted_item_hidden_witness :
  let gone := Item.set_deleted true (Item.new 2 "ink" (PyFloat.of_Z 2)) in
  Dict.get 2 (items_db catalogue) = Some gone /\
  get_item 2 catalogue = (Raise NotFound, catalogue) /\
  fst (get_item_list 0 10 None None false catalogue) =
    Return [pen_item; Item.new 3 "desk" (PyFloat.of_Z 10)] /\
  fst (get_item_list 0 10 None None true catalogue) =
    Return [pen_item; gone; Item.new 3 "desk" (PyFloat.of_Z 10)].
Proof.
  split; [reflexivity|].
  split; [|split; reflexivity].
  apply (soft_deleted_item_hidden catalogue 2
           (Item.set_deleted true (Item.new 2 "ink" (PyFloat.of_Z 2))));
    reflexivity.
Defined.

(** ** AddItem *)

Lemma add_cart_item_new item items :
  lacks (Item.id item) items ->
  add_cart_item item items = items ++ [new_cart_item item 1].
Proof.
  induction items as [|ci items IH]; intros L; simpl; [reflexivity|].
  destruct (CartItem.id ci =? Item.id item) eqn:E.
  - apply Z.eqb_eq in E. exfalso. apply (L ci); [now left|exact E].
  - rewrite IH; [reflexivity|]. intros c Hc. apply L. now right.
Qed.

Lemma add_cart_item_again item items q :
  lacks (Item.id item) items ->
  add_cart_item item (items ++ [new_cart_item item q]) =
    items ++ [new_cart_item item (q + 1)].
Proof.
  induction items as [|ci items IH]; intros L; simpl.
  - now rewrite Z.eqb_refl.
  - destruct (CartItem.id ci =? Item.id item) eqn:E.
    + apply Z.eqb_eq in E. exfalso. apply (L ci); [now left|exact E].
    + rewrite IH; [reflexivity|]. intros c Hc. apply L. now right.
Qed.

Lemma filter_lacks item_id items extra :
  lacks item_id items ->
  CartItem.id extra = item_id ->
  filter (fun ci => CartItem.id ci =? item_id) (items ++ [extra]) = [extra].
Proof.
  intros L E. rewrite filter_app. simpl. rewrite E, Z.eqb_refl.
  replace (filter _ items) with (@nil CartItem.t); [reflexivity|].
  symmetry. induction items as [|ci items IH]; simpl; [reflexivity|].
  destruct (CartItem.id ci =? item_id) eqn:E'.
  - apply Z.eqb_eq in E'. exfalso. apply (L ci); [now left|exact E'].
  - apply IH. intros c Hc. apply L. now right.
Qed.

Lemma add_to_cart_float st cart_id item_id cart item p :
  Dict.get cart_id (carts_db st) = Some cart ->
  Dict.get item_id (items_db st) = Some item ->
  Item.deleted item = false ->
  Item.price item = VFloat p ->
  let cart' :=
    {| Cart.id := Cart.id cart;
       Cart.items := add_cart_item item (Cart.items cart);
       Cart.price := PyFloat.add (Cart.price cart) p |} in
  add_to_cart cart_id item_id st =
    (Return cart', with_carts (Dict.set cart_id cart' (carts_db st)) st).
Proof.
  intros Hc Hi Hd Hp. unfold add_to_cart. rewrite Hc, Hi, Hd. simpl.
  now rewrite Hp.
Qed.

(** C2, as the code has it: when the cart exists, the item exists with a
    float price, is not soft-deleted and is not yet in the cart, two
    successive calls of [add_to_cart] return, and leave the cart with its
    former cart items followed by one cart item for that item id, of
    quantity 2; the cart's price is its former price with the unit price
    added to it twice, each addition rounding as float addition does.  The
    item store and the other carts are what they were. *)
Theorem add_to_cart_twice (st : state) (cart_id item_id : Z)
  (cart : Cart.t) (item : Item.t) (p : PyFloat.t) :
  Dict.get cart_id (carts_db st) = Some cart ->
  Dict.get item_id (items_db st) = Some item ->
  Item.deleted item = false ->
  Item.id item = item_id ->
  Item.price item = VFloat p ->
  lacks item_id (Cart.items cart) ->
  let st1 := snd (add_to_cart cart_id item_id st) in
  let st2 := snd (add_to_cart cart_id item_id st1) in
  let added :=
    {| CartItem.id := item_id;
       CartItem.name := Item.name item;
       CartItem.quantity := 2 |} in
  let cart2 :=
    {| Cart.id := Cart.id cart;
       Cart.items := Cart.items cart ++ [added];
       Cart.price := PyFloat.add (PyFloat.add (Cart.price cart) p) p |} in
  (exists cart1, fst (add_to_cart cart_id item_id st) = Return cart1) /\
  fst (add_to_cart cart_id item_id st1) = Return cart2 /\
  Dict.get cart_id (carts_db st2) = Some cart2 /\
  filter (fun ci => CartItem.id ci =? item_id) (Cart.items cart2) = [added] /\
  items_db st2 = items_db st /\
  (forall k, k <> cart_id -> Dict.get k (carts_db st2) = Dict.get k (carts_db st)).
Proof.
  intros Hc Hi Hd Hid Hp L st1 st2 added cart2. subst st2 st1.
  rewrite (add_to_cart_float st cart_id item_id cart item p Hc Hi Hd Hp).
  cbv zeta. simpl snd. simpl fst.
  erewrite add_to_cart_float;
    [| simpl; apply get_set_same | exact Hi | exact Hd | exact Hp ].
  cbv zeta. simpl.
  assert (L' : lacks (Item.id item) (Cart.items cart)) by (now rewrite Hid).
  rewrite (add_cart_item_new item _ L'), (add_cart_item_again item _ 1 L').
  unfold new_cart_item. simpl. rewrite Hid. fold added. fold cart2.
  split; [eauto|]. split; [reflexivity|].
  split; [apply get_set_same|].
  split; [now apply filter_lacks|].
  split; [reflexivity|].
  intros k N. now rewrite !get_set_other.
Qed.

(** The spec's scenario: the pen at 1.5 added twice to the empty cart gives
    quantity 2 and price 3.0. *)
Lemma add_to_cart_twice_witness :
  Dict.get 1 (carts_db shop) = Some (Cart.new 1) /\
  Dict.get 1 (items_db shop) = Some pen_item /\
  fst (add_to_cart 1 1 (snd (add_to_cart 1 1 shop))) =
    Return {| Cart.id := 1;
              Cart.items := [{| CartItem.id := 1;
                                CartItem.name := VStr "pen";
                                CartItem.quantity := 2 |}];
              Cart.price := PyFloat.of_Z 3 |}.
Proof.
  split; [reflexivity|]. split; [reflexivity|].
  assert (L : lacks 1 (Cart.items (Cart.new 1))) by (intros ci []).
  destruct (add_to_cart_twice shop 1 1 (Cart.new 1) pen_item (PyFloat.of_dyadic 3 (-1))
              eq_refl eq_refl eq_refl eq_refl eq_refl L) as (_ & -> & _).
  reflexivity.
Defined.

(** C2 fails as stated: adding the stamp twice to the cart leaves the cart's
    price at 2 ** 53, because 2 ** 53 + 1.0 rounds to 2 ** 53; the price has
    not grown by 2 * 1.0. *)
Lemma add_to_cart_twice_counterexample :
  Dict.get 2 (items_db ledger) = Some (Item.new 2 "stamp" (PyFloat.of_Z 1)) /\
  (exists cart,
     Dict.get 1 (carts_db ledger) = Some cart /\
     Cart.price cart = PyFloat.of_Z (2 ^ 53) /\
     map CartItem.id (Cart.items cart) = [1]) /\
  (exists cart2,
     fst (add_to_cart 1 2 (snd (add_to_cart 1 2 ledger))) = Return cart2 /\
     map CartItem.quantity (Cart.items cart2) = [1; 2] /\
     Cart.price cart2 = PyFloat.of_Z (2 ^ 53) /\
     Cart.price cart2 <>
       PyFloat.add (PyFloat.of_Z (2 ^ 53)) (PyFloat.mul (PyFloat.of_Z 2) (PyFloat.of_Z 1))).
Proof.
  split; [reflexivity|]. split.
  - eexists. repeat split.
  - eexists. split; [reflexivity|]. split; [reflexivity|].
    split; [reflexivity|]. vm_compute. discriminate.
Qed.

Lemma float_add_raises a v e :
  float_add a v = Raise e -> e = TypeError \/ e = OverflowError.
Proof.
  unfold float_add, float_of_int.
  destruct v; simpl; try (intros H; injection H as <-; now left); try discriminate;
    destruct (PyFloat.is_infinity _); simpl; try discriminate;
    intros H; injection H as <-; now right.
Qed.

(** [add_to_cart] never touches the item store. *)
Lemma add_to_cart_items_db cart_id item_id st :
  items_db (snd (add_to_cart cart_id item_id st)) = items_db st.
Proof.
  unfold add_to_cart.
  destruct (Dict.get cart_id (carts_db st)); [|reflexivity].
  destruct (Dict.get item_id (items_db st)) as [item|]; [|reflexivity].
  destruct (Item.deleted item); [reflexivity|].
  destruct (float_add _ _); reflexivity.
Qed.

(** C9: [add_to_cart] on an absent cart id, or on an item id that is absent
    or soft-deleted, raises NotFound and leaves both stores as they were, and
    only such a call ends that way; no other HTTP error is raised, and a call
    on an item with a float price raises nothing else either.  The item store
    is never touched. *)
Theorem add_to_cart_failure (st : state) (cart_id item_id : Z) :
  (add_fails cart_id item_id st <->
     add_to_cart cart_id item_id st = (Raise NotFound, st)) /\
  (forall code,
     fst (add_to_cart cart_id item_id st) = Raise (HTTPException code) ->
     add_fails cart_id item_id st) /\
  (forall item p e,
     Dict.get item_id (items_db st) = Some item ->
     Item.price item = VFloat p ->
     fst (add_to_cart cart_id item_id st) = Raise e ->
     add_fails cart_id item_id st) /\
  items_db (snd (add_to_cart cart_id item_id st)) = items_db st.
Proof.
  unfold add_fails, add_to_cart.
  destruct (Dict.get cart_id (carts_db st)) as [cart|] eqn:Hc.
  2:{ repeat split; auto. }
  destruct (Dict.get item_id (items_db st)) as [item|] eqn:Hi.
  2:{ repeat split; auto. }
  destruct (Item.deleted item) eqn:Hd.
  { repeat split; eauto 6. }
  assert (Hno : ~ (Some cart = None \/ Some item = None \/
                   exists item0, Some item = Some item0 /\ Item.deleted item0 = true)).
  { intros [H|[H|(item0 & H & H')]]; try discriminate.
    injection H as <-. congruence. }
  split; [|split; [|split]].
  - split; [tauto|]. intros H. exfalso.
    destruct (float_add _ _) as [p|e] eqn:E; [discriminate|].
    destruct (float_add_raises _ _ _ E) as [-> | ->]; discriminate.
  - intros code H. exfalso.
    destruct (float_add _ _) as [p|e] eqn:E; [discriminate|].
    destruct (float_add_raises _ _ _ E) as [-> | ->]; discriminate.
  - intros item0 p e H Hp Hr. injection H as <-. rewrite Hp in Hr. discriminate.
  - destruct (float_add _ _); reflexivity.
Qed.

Lemma add_to_cart_failure_witness :
  add_fails 1 1 (handle (DeleteItem 1) shop) /\
  add_to_cart 1 1 (handle (DeleteItem 1) shop) =
    (Raise NotFound, handle (DeleteItem 1) shop) /\
  add_to_cart 7 1 shop = (Raise NotFound, shop).
Proof.
  assert (F1 : add_fails 1 1 (handle (DeleteItem 1) shop)).
  { right. right. eexists. split; reflexivity. }
  assert (F2 : add_fails 7 1 shop) by (now left).
  split; [exact F1|]. split.
  - apply (proj1 (add_to_cart_failure (handle (DeleteItem 1) shop) 1 1)), F1.
  - apply (proj1 (add_to_cart_failure shop 7 1)), F2.
Defined.

(** Not one of the failures above: once a PATCH has stored a string as the
    price of an item, adding the item to a cart appends the cart item and then
    raises a [TypeError] on the addition to the cart's price. *)
Lemma add_to_cart_type_error_example :
  let st := run [PostItem pen; PatchItem 1 free_body; PostCart] empty_state in
  ~ add_fails 1 1 st /\
  fst (add_to_cart 1 1 st) = Raise TypeError /\
  snd (add_to_cart 1 1 st) <> st.
Proof.
  cbv zeta. split; [|split; [reflexivity|discriminate]].
  intros [H|[H|(item & H & H')]]; try discriminate.
  injection H as <-. discriminate.
Qed.

(** ** Prices *)

Lemma values_set_in {V : Type} (k : Z) (v v' : V) (d : Dict.t V) :
  In v' (Dict.values (Dict.set k v d)) -> v' = v \/ In v' (Dict.values d).
Proof.
  unfold Dict.values. induction d as [|[k0 v0] d IH]; simpl.
  - intros [H|[]]. now left.
  - destruct (k =? k0); simpl.
    + intros [H|H]; auto.
    + intros [H|H]; auto. destruct (IH H); auto.
Qed.

(** Every validated request other than a PATCH keeps the stored prices
    non-negative. *)
Lemma handle_keeps_prices_non_negative req st :
  validated req = true ->
  (forall id body, req <> PatchItem id body) ->
  prices_non_negative st -> prices_non_negative (handle req st).
Proof.
  intros Hv Hnp Hst. destruct req; simpl in *; auto.
  - intros it HIn. apply values_set_in in HIn. destruct HIn as [->|HIn]; [|auto].
    unfold price_non_negative. simpl. unfold non_negative_float in Hv. now rewrite Hv.
  - unfold get_item. destruct (Dict.get id (items_db st)) as [item|];
      [destruct (Item.deleted item)|]; auto.
  - unfold update_item. destruct (Dict.contains id (items_db st)); simpl; auto.
    intros it HIn. apply values_set_in in HIn. destruct HIn as [->|HIn]; [|auto].
    unfold price_non_negative. simpl. unfold non_negative_float in Hv. now rewrite Hv.
  - exfalso. now apply (Hnp id body).
  - unfold delete_item. destruct (Dict.get id (items_db st)) as [item|] eqn:Hget; auto.
    intros it HIn. apply values_set_in in HIn. destruct HIn as [->|HIn]; [|auto].
    simpl. apply Hst. eapply get_Some_values; eauto.
  - unfold get_cart. destruct (Dict.get id (carts_db st)); auto.
  - intros it HIn. apply Hst. now rewrite add_to_cart_items_db in HIn.
Qed.

(** C5 does not hold of the code: [patch_item] stores the price it is given
    without checking it.  After a validated create and a PATCH whose body
    sets price to -1.0, the handler returns and the stored item has the price
    -1.0, in a state reached by validated requests only. *)
Theorem patch_item_stores_negative_price :
  let reqs := [PostItem pen; PatchItem 1 negative_price_body] in
  let st := run reqs empty_state in
  let patched := Item.set_price (VFloat (PyFloat.of_Z (-1))) pen_item in
  forallb validated reqs = true /\
  reachable_validated st /\
  prices_non_negative (handle (PostItem pen) empty_state) /\
  fst (patch_item 1 negative_price_body (handle (PostItem pen) empty_state))
    = Return patched /\
  Dict.get 1 (items_db st) = Some patched /\
  price_non_negative (Item.price patched) = false /\
  ~ prices_non_negative st.
Proof.
  cbv zeta. split; [reflexivity|].
  split; [apply run_reachable_by; [apply reachable_empty|reflexivity]|].
  split; [intros item [<-|[]]; reflexivity|].
  split; [reflexivity|]. split; [reflexivity|]. split; [reflexivity|].
  intros H. specialize (H _ (or_introl eq_refl)). discriminate.
Qed.

(** * Further properties *)

(** ** PartialUpdate: what the loop does *)

Lemma is_allowed_cases key :
  is_allowed key = true -> key = "name" \/ key = "price".
Proof.
  unfold is_allowed, allowed_fields. simpl.
  destruct (String.eqb key "name") eqn:E1; [apply String.eqb_eq in E1; auto|].
  destruct (String.eqb key "price") eqn:E2; [apply String.eqb_eq in E2; auto|].
  discriminate.
Qed.

Lemma patch_fields_all_allowed body : forall item,
  all_allowed body = true ->
  patch_fields body item = (Return tt, patched body item).
Proof.
  induction body as [|[key v] body IH]; intros item H.
  - destruct item. reflexivity.
  - unfold all_allowed in H. simpl in H. apply andb_prop in H. destruct H as [Hk H].
    simpl. rewrite Hk. rewrite (IH _ H). f_equal.
    unfold patched. simpl.
    destruct (patch_fields_keeps_id_deleted [] (setattr item key v)) as [_ _].
    destruct (setattr_keeps_id_deleted item key v) as [-> ->].
    destruct (is_allowed_cases key Hk) as [-> | ->]; unfold setattr; simpl;
      destruct (last_value "name" body), (last_value "price" body); reflexivity.
Qed.

Lemma patch_fields_stops prefix key v rest : forall item,
  all_allowed prefix = true ->
  is_allowed key = false ->
  patch_fields (prefix ++ (key, v) :: rest) item =
    (Raise UnprocessableEntity, patched prefix item).
Proof.
  induction prefix as [|[k w] prefix IH]; intros item H Hbad.
  - simpl. rewrite Hbad. destruct item. reflexivity.
  - unfold all_allowed in H. simpl in H. apply andb_prop in H. destruct H as [Hk H].
    simpl. rewrite Hk. rewrite (IH _ H Hbad). f_equal.
    unfold patched. simpl.
    destruct (setattr_keeps_id_deleted item k w) as [-> ->].
    destruct (is_allowed_cases k Hk) as [-> | ->]; unfold setattr; simpl;
      destruct (last_value "name" prefix), (last_value "price" prefix); reflexivity.
Qed.

Lemma not_all_allowed_split body :
  all_allowed body = false ->
  exists prefix key v rest,
    body = prefix ++ (key, v) :: rest /\
    all_allowed prefix = true /\ is_allowed key = false.
Proof.
  induction body as [|[k w] body IH]; [discriminate|].
  unfold all_allowed. simpl. destruct (is_allowed k) eqn:Hk; simpl.
  - intros H. destruct (IH H) as (prefix & key & v & rest & -> & Hp & Hbad).
    exists ((k, w) :: prefix), key, v, rest. repeat split; auto.
    unfold all_allowed. simpl. now rewrite Hk.
  - intros _. exists [], k, w, body. repeat split; auto.
Qed.

Lemma last_value_in key v body :
  NoDup (map fst body) -> In (key, v) body -> last_value key body = Some v.
Proof.
  induction body as [|[k w] body IH]; simpl; intros ND HIn; [destruct HIn|].
  inversion ND as [|? ? Hnotin ND']; subst.
  destruct HIn as [E|HIn].
  - injection E as -> ->.
    destruct (last_value key body) as [u|] eqn:L.
    + exfalso. apply Hnotin. clear - L.
      induction body as [|[k' w'] body IH]; simpl in *; [discriminate|].
      destruct (last_value key body); [right; now apply IH|].
      destruct (String.eqb k' key) eqn:E; [|discriminate].
      apply String.eqb_eq in E. now left.
    + now rewrite String.eqb_refl.
  - now rewrite (IH ND' HIn).
Qed.

Lemma last_value_absent key body :
  ~ In key (map fst body) -> last_value key body = None.
Proof.
  induction body as [|[k w] body IH]; simpl; intros N; [reflexivity|].
  rewrite IH by tauto.
  destruct (String.eqb k key) eqn:E; [|reflexivity].
  apply String.eqb_eq in E. tauto.
Qed.

Lemma patched_patched body item : patched body (patched body item) = patched body item.
Proof.
  unfold patched. simpl.
  destruct (last_value "name" body), (last_value "price" body); reflexivity.
Qed.

Lemma patch_item_active st id body item :
  Dict.get id (items_db st) = Some item ->
  Item.deleted item = false ->
  patch_item id body st =
    (if all_allowed body then Return (snd (patch_fields body item))
     else Raise UnprocessableEntity,
     with_items (Dict.set id (snd (patch_fields body item)) (items_db st)) st).
Proof.
  intros Hget Hdel. unfold patch_item. rewrite Hget, Hdel.
  destruct (all_allowed body) eqn:A.
  - now rewrite (patch_fields_all_allowed body item A).
  - destruct (not_all_allowed_split body A) as (prefix & key & v & rest & -> & Hp & Hbad).
    now rewrite (patch_fields_stops prefix key v rest item Hp Hbad).
Qed.

(** X1: on a stored item that is not soft-deleted, a body whose keys are all
    among name and price makes [patch_item] return the item with the body's
    name and price in place of its own, where the body gives them, and with
    its id and deleted flag as they were; [get_item] returns that item
    afterwards, and every other item, the order of the items and the carts
    are unchanged. *)
Theorem patch_item_applies_body (st : state) (id : Z)
  (body : list (string * value)) (item : Item.t) :
  Dict.get id (items_db st) = Some item ->
  Item.deleted item = false ->
  all_allowed body = true ->
  let st' := snd (patch_item id body st) in
  fst (patch_item id body st) = Return (patched body item) /\
  get_item id st' = (Return (patched body item), st') /\
  (NoDup (map fst body) ->
   (forall v, In ("name", v) body -> Item.name (patched body item) = v) /\
   (forall v, In ("price", v) body -> Item.price (patched body item) = v) /\
   (~ In "name" (map fst body) -> Item.name (patched body item) = Item.name item) /\
   (~ In "price" (map fst body) -> Item.price (patched body item) = Item.price item)) /\
  (forall k, k <> id -> Dict.get k (items_db st') = Dict.get k (items_db st)) /\
  Dict.keys (items_db st') = Dict.keys (items_db st) /\
  carts_db st' = carts_db st.
Proof.
  intros Hget Hdel A st'. subst st'.
  rewrite (patch_item_active st id body item Hget Hdel), A.
  rewrite (patch_fields_all_allowed body item A). simpl.
  split; [reflexivity|]. split; [|split; [|split; [|split]]].
  - unfold get_item. simpl. rewrite get_set_same. simpl. now rewrite Hdel.
  - intros ND. repeat split.
    + intros v HIn. now rewrite (last_value_in _ _ _ ND HIn).
    + intros v HIn. now rewrite (last_value_in _ _ _ ND HIn).
    + intros N. now rewrite (last_value_absent _ _ N).
    + intros N. now rewrite (last_value_absent _ _ N).
  - intros k N. now apply get_set_other.
  - eapply keys_set_present; eauto.
  - reflexivity.
Qed.

Lemma patch_item_applies_body_witness :
  Dict.get 1 (items_db shop) = Some pen_item /\
  all_allowed rename_body = true /\
  fst (patch_item 1 rename_body shop) =
    Return {| Item.id := 1; Item.name := VStr "ink";
              Item.price := VFloat (PyFloat.of_Z 2); Item.deleted := false |}.
Proof.
  split; [reflexivity|]. split; [reflexivity|].
  destruct (patch_item_applies_body shop 1 rename_body pen_item eq_refl eq_refl eq_refl)
    as [-> _].
  reflexivity.
Defined.

Ltac outcome_cases :=
  repeat split; intros;
  repeat match goal with
         | H : exists _, _ |- _ => destruct H
         | H : _ /\ _ |- _ => destruct H
         | H : _ \/ _ |- _ => destruct H
         | H : Some _ = Some _ |- _ => injection H as H; subst
         end;
  try discriminate; try congruence;
  try (eexists; repeat split; (reflexivity || eassumption)).

(** X2: what [patch_item] does is decided by the stored item and the keys of
    the body alone: NotFound exactly when the id is not in the store,
    NotModified exactly when its item is soft-deleted, UnprocessableEntity
    exactly when the item is active and some key is outside name and price,
    and a return exactly when the item is active and every key is allowed.
    The two first failures leave the stores as they were. *)
Theorem patch_item_outcome (st : state) (id : Z) (body : list (string * value)) :
  (fst (patch_item id body st) = Raise NotFound <->
     Dict.get id (items_db st) = None) /\
  (fst (patch_item id body st) = Raise NotModified <->
     exists item, Dict.get id (items_db st) = Some item /\ Item.deleted item = true) /\
  (fst (patch_item id body st) = Raise UnprocessableEntity <->
     exists item, Dict.get id (items_db st) = Some item /\
                  Item.deleted item = false /\ all_allowed body = false) /\
  ((exists item', fst (patch_item id body st) = Return item') <->
     exists item, Dict.get id (items_db st) = Some item /\
                  Item.deleted item = false /\ all_allowed body = true) /\
  (fst (patch_item id body st) = Raise NotFound \/
   fst (patch_item id body st) = Raise NotModified ->
   snd (patch_item id body st) = st).
Proof.
  destruct (Dict.get id (items_db st)) as [item|] eqn:Hget.
  2:{ unfold patch_item. rewrite Hget. simpl. outcome_cases. }
  destruct (Item.deleted item) eqn:Hdel.
  { unfold patch_item. rewrite Hget, Hdel. simpl. outcome_cases. }
  rewrite (patch_item_active st id body item Hget Hdel). simpl.
  destruct (all_allowed body) eqn:A; outcome_cases.
Qed.

(** X3: when the first key outside name and price comes after allowed keys,
    [patch_item] raises UnprocessableEntity having stored exactly what a
    PATCH with the keys before it would have stored; the keys after it are
    not looked at.  When that key is the first of the body, the stores are
    what they were. *)
Theorem patch_item_stops_at_unknown_key (st : state) (id : Z) (item : Item.t)
  (prefix : list (string * value)) (key : string) (v : value)
  (rest : list (string * value)) :
  Dict.get id (items_db st) = Some item ->
  Item.deleted item = false ->
  all_allowed prefix = true ->
  is_allowed key = false ->
  let body := prefix ++ (key, v) :: rest in
  fst (patch_item id body st) = Raise UnprocessableEntity /\
  snd (patch_item id body st) = snd (patch_item id prefix st) /\
  Dict.get id (items_db (snd (patch_item id body st))) = Some (patched prefix item) /\
  (prefix = [] -> snd (patch_item id body st) = st).
Proof.
  intros Hget Hdel Hp Hbad body. subst body.
  unfold patch_item. rewrite Hget, Hdel.
  rewrite (patch_fields_stops prefix key v rest item Hp Hbad).
  rewrite (patch_fields_all_allowed prefix item Hp). simpl.
  repeat split.
  - apply get_set_same.
  - intros ->. unfold patched. simpl.
    replace {| Item.id := Item.id item; Item.name := Item.name item;
               Item.price := Item.price item; Item.deleted := Item.deleted item |}
      with item by (now destruct item).
    rewrite (set_get_same _ _ _ Hget). now destruct st.
Qed.

Lemma patch_item_stops_at_unknown_key_witness :
  Dict.get 1 (items_db shop) = Some pen_item /\
  is_allowed "colour" = false /\
  Dict.get 1 (items_db (snd (patch_item 1 ink_body shop))) =
    Some (Item.set_name (VStr "ink") pen_item) /\
  snd (patch_item 1 colour_body shop) = shop.
Proof.
  split; [reflexivity|]. split; [reflexivity|]. split.
  - apply (patch_item_stops_at_unknown_key shop 1 pen_item
             [("name", VStr "ink")] "colour" (VStr "blue") []); reflexivity.
  - apply (patch_item_stops_at_unknown_key shop 1 pen_item
             [] "colour" (VStr "blue") []); reflexivity.
Defined.

(** X4: a PATCH that was accepted changes nothing when it is sent again:
    the second call returns the same item and leaves the state of the
    first. *)
Theorem patch_item_twice (st : state) (id : Z)
  (body : list (string * value)) (item : Item.t) :
  Dict.get id (items_db st) = Some item ->
  Item.deleted item = false ->
  all_allowed body = true ->
  let st1 := snd (patch_item id body st) in
  patch_item id body st1 = (fst (patch_item id body st), st1).
Proof.
  intros Hget Hdel A st1. subst st1.
  rewrite (patch_item_active st id body item Hget Hdel), A.
  rewrite (patch_fields_all_allowed body item A). simpl.
  erewrite patch_item_active; [| simpl; apply get_set_same | exact Hdel ].
  rewrite A, (patch_fields_all_allowed body _ A), patched_patched. simpl.
  unfold with_items. simpl. now rewrite set_set.
Qed.

Lemma patch_item_twice_witness :
  Dict.get 1 (items_db shop) = Some pen_item /\
  all_allowed rename_body = true /\
  snd (patch_item 1 rename_body (snd (patch_item 1 rename_body shop))) =
    snd (patch_item 1 rename_body shop).
Proof.
  split; [reflexivity|]. split; [reflexivity|].
  now rewrite (patch_item_twice shop 1 rename_body pen_item eq_refl eq_refl eq_refl).
Defined.

(** ** Create, then get *)

(** X5: [create_item] stores the new item under the count plus one, and
    then answers 201 with that id, the name and the price and a Location that
    ends in the id when the price is finite, and raises ValueError when the
    price is a NaN or an infinity.  Either way [get_item] on that id then
    returns the item, not deleted; every other id reads as before and the
    carts are untouched.  In a reachable state the new item goes last in the
    store and the count grows by one. *)
Theorem create_item_then_get_item (st : state) (item : ItemPost.t) :
  let n := Dict.len (items_db st) + 1 in
  let st' := snd (create_item item st) in
  let stored :=
    {| Item.id := n;
       Item.name := VStr (ItemPost.name item);
       Item.price := VFloat (ItemPost.price item);
       Item.deleted := false |} in
  fst (create_item item st) =
    (if PyFloat.is_finite (ItemPost.price item)
     then Return {| content := (n, VStr (ItemPost.name item), VFloat (ItemPost.price item));
                    status_code := 201;
                    location := ("/item/", n) |}
     else Raise ValueError) /\
  get_item n st' = (Return stored, st') /\
  (forall k, k <> n -> get_item k st' = (fst (get_item k st), st')) /\
  carts_db st' = carts_db st /\
  (reachable st ->
   Dict.values (items_db st') = Dict.values (items_db st) ++ [stored] /\
   Dict.len (items_db st') = n).
Proof.
  intros n st' stored. subst st'.
  split; [apply create_item_outcome|]. simpl.
  split; [|split; [|split; [reflexivity|]]].
  - unfold get_item. simpl. now rewrite get_set_same.
  - intros k N. unfold get_item. simpl. rewrite get_set_other by assumption.
    destruct (Dict.get k (items_db st)) as [it|]; [destruct (Item.deleted it)|];
      reflexivity.
  - intros R. destruct (reachable_store_inv _ _ R) as [SI _ _ _].
    split; [|now apply len_set_next].
    rewrite (set_absent _ _ _ (sequential_fresh _ SI)).
    unfold Dict.values. now rewrite map_app.
Qed.

(** A price of plus infinity passes the check [>= 0]: the create raises, and
    the item is in the store. *)
Lemma create_item_then_get_item_witness :
  let gold := {| ItemPost.name := "gold"; ItemPost.price := S754_infinity false |} in
  validated (PostItem gold) = true /\
  fst (create_item gold shop) = Raise ValueError /\
  fst (get_item 2 (snd (create_item gold shop))) =
    Return (Item.new 2 "gold" (S754_infinity false)) /\
  fst (create_item pen shop) =
    Return {| content := (2, VStr "pen", VFloat (PyFloat.of_dyadic 3 (-1)));
              status_code := 201;
              location := ("/item/", 2) |}.
Proof.
  cbv zeta. split; [reflexivity|].
  pose proof (create_item_then_get_item shop
                {| ItemPost.name := "gold"; ItemPost.price := S754_infinity false |})
    as (E1 & E2 & _).
  pose proof (create_item_then_get_item shop pen) as (E3 & _).
  split; [exact E1|]. split; [|exact E3].
  exact (f_equal fst E2).
Defined.

(** X6: [create_cart] answers 201 with the new id and a Location that ends
    in it, and [get_cart] on that id then returns a cart with no items and
    the price 0.0; every other id reads as before and the items are
    untouched.  [get_cart] raises NotFound exactly on an id that is not in
    the store, and never changes the stores. *)
Theorem create_cart_then_get_cart (st : state) :
  let n := Dict.len (carts_db st) + 1 in
  let st' := snd (create_cart st) in
  fst (create_cart st) =
    Return {| content := n; status_code := 201; location := ("/cart/", n) |} /\
  get_cart n st' =
    (Return {| Cart.id := n; Cart.items := []; Cart.price := PyFloat.zero |}, st') /\
  (forall k, k <> n -> get_cart k st' = (fst (get_cart k st), st')) /\
  items_db st' = items_db st /\
  (forall k, fst (get_cart k st) = Raise NotFound <-> Dict.get k (carts_db st) = None) /\
  (forall k, snd (get_cart k st) = st) /\
  (reachable st -> Dict.len (carts_db st') = n).
Proof.
  intros n st'. subst st'. simpl.
  split; [reflexivity|]. split; [|split; [|split; [reflexivity|split; [|split]]]].
  - unfold get_cart. simpl. now rewrite get_set_same.
  - intros k N. unfold get_cart. simpl. rewrite get_set_other by assumption.
    destruct (Dict.get k (carts_db st)); reflexivity.
  - intros k. unfold get_cart.
    destruct (Dict.get k (carts_db st)); simpl; split; congruence.
  - intros k. unfold get_cart. destruct (Dict.get k (carts_db st)); reflexivity.
  - intros R. destruct (reachable_store_inv _ _ R) as [_ SC _ _].
    now apply len_set_next.
Qed.

(** ** The listings *)

Lemma window_length {A : Type} (offset limit : Z) (l : list A) :
  0 < limit -> Z.of_nat (length (window offset limit l)) <= limit.
Proof.
  intros H. unfold window.
  pose proof (firstn_le_length (Z.to_nat limit) (skipn (Z.to_nat offset) l)). lia.
Qed.

Lemma window_beyond {A : Type} (offset limit : Z) (l : list A) :
  Z.of_nat (length l) <= offset -> window offset limit l = [].
Proof.
  intros H. unfold window. rewrite skipn_all2 by lia. apply firstn_nil.
Qed.

Lemma filter_length {A : Type} (p : A -> bool) (l : list A) :
  (length (filter p l) <= length l)%nat.
Proof.
  induction l as [|x l IH]; simpl; [lia|]. destruct (p x); simpl; lia.
Qed.

Lemma cart_filter_within lo hi qlo qhi cart :
  cart_filter lo hi qlo qhi cart = true <-> cart_within lo hi qlo qhi cart.
Proof.
  unfold cart_filter, cart_within. rewrite !andb_true_iff. split.
  - intros [[[H1 H2] H3] H4]. repeat split; intros b ->; auto; lia.
  - intros (H1 & H2 & H3 & H4). repeat split.
    + destruct lo; auto.
    + destruct hi; auto.
    + destruct qlo as [q|]; auto. specialize (H3 q eq_refl). lia.
    + destruct qhi as [q|]; auto. specialize (H4 q eq_refl). lia.
Qed.

(** X7: for every offset >= 0 and limit > 0, [get_cart_list] always returns
    and leaves the stores alone; a cart is in the result exactly when it is
    in the window [[offset, offset+limit)] of the stored carts and its price
    and its total quantity are within the bounds that were given, each bound
    inclusive.  The result has at most limit carts; with no bound it is the
    whole window, and with an offset at or past the number of carts it is
    empty. *)
Theorem get_cart_list_window_then_bounds (st : state) (offset limit : Z)
  (min_price max_price : option PyFloat.t) (min_quantity max_quantity : option Z) :
  0 <= offset -> 0 < limit ->
  exists l,
    get_cart_list offset limit min_price max_price min_quantity max_quantity st
      = (Return l, st) /\
    (forall cart,
       In cart l <->
       In cart (window offset limit (Dict.values (carts_db st))) /\
       cart_within min_price max_price min_quantity max_quantity cart) /\
    Z.of_nat (length l) <= limit /\
    (min_price = None -> max_price = None ->
     min_quantity = None -> max_quantity = None ->
     l = window offset limit (Dict.values (carts_db st))) /\
    (Dict.len (carts_db st) <= offset -> l = []).
Proof.
  intros Ho Hl. unfold get_cart_list. rewrite slice_window by assumption.
  eexists. split; [reflexivity|]. split; [|split; [|split]].
  - intros cart. rewrite filter_In. now rewrite cart_filter_within.
  - pose proof (filter_length
                  (cart_filter min_price max_price min_quantity max_quantity)
                  (window offset limit (Dict.values (carts_db st)))).
    pose proof (window_length offset limit (Dict.values (carts_db st)) Hl). lia.
  - intros -> -> -> ->. apply filter_all. apply forallb_forall. reflexivity.
  - intros H. rewrite window_beyond; [reflexivity|].
    unfold Dict.values. rewrite length_map. exact H.
Qed.

Lemma get_cart_list_window_then_bounds_witness :
  exists l,
    get_cart_list 0 10 None None (Some 1) None ledger = (Return l, ledger) /\
    map Cart.id l = [1].
Proof.
  assert (H1 : 0 <= 0) by lia. assert (H2 : 0 < 10) by lia.
  destruct (get_cart_list_window_then_bounds ledger 0 10 None None (Some 1) None H1 H2)
    as (l & E & _).
  exists l. split; [exact E|].
  revert E. vm_compute. intros E. injection E as <-. reflexivity.
Defined.

Lemma NoDup_map_firstn {A B : Type} (f : A -> B) (n : nat) (l : list A) :
  NoDup (map f l) -> NoDup (map f (firstn n l)).
Proof.
  intros H. rewrite <- (firstn_skipn n l), map_app in H.
  eapply NoDup_app_remove_r, H.
Qed.

Lemma NoDup_map_skipn {A B : Type} (f : A -> B) (n : nat) (l : list A) :
  NoDup (map f l) -> NoDup (map f (skipn n l)).
Proof.
  intros H. rewrite <- (firstn_skipn n l), map_app in H.
  eapply NoDup_app_remove_l, H.
Qed.

Lemma filter_keeps_ids_distinct (keep : Item.t -> bool) (items : list Item.t) :
  NoDup (map Item.id items) -> NoDup (map Item.id (filter keep items)).
Proof.
  intros ND. induction items as [|item items IH]; simpl in *; [constructor|].
  inversion ND as [|? ? Hfresh ND']; subst.
  destruct (keep item); simpl; [|now apply IH].
  constructor; [|now apply IH].
  intros HIn. apply Hfresh.
  apply in_map_iff in HIn. destruct HIn as (other & E & Hother).
  apply filter_In in Hother. apply in_map_iff. exists other. tauto.
Qed.

(** X8: for every offset >= 0 and limit > 0, whatever [get_item_list]
    returns has at most limit items, all of them stored items, none of them
    soft-deleted unless show_deleted was set; with an offset at or past the
    number of stored items the call returns the empty list.  In a reachable
    state no item comes twice. *)
Theorem get_item_list_bounded (st : state) (offset limit : Z)
  (min_price max_price : option PyFloat.t) (show_deleted : bool) :
  0 <= offset -> 0 < limit ->
  (forall l,
     fst (get_item_list offset limit min_price max_price show_deleted st) = Return l ->
     Z.of_nat (length l) <= limit /\
     (forall item, In item l ->
        In item (Dict.values (items_db st)) /\
        (show_deleted = false -> Item.deleted item = false)) /\
     (reachable st -> NoDup (map Item.id l))) /\
  (Dict.len (items_db st) <= offset ->
   fst (get_item_list offset limit min_price max_price show_deleted st) = Return []).
Proof.
  intros Ho Hl. split.
  - intros l H. rewrite (get_item_list_sound _ _ _ _ _ _ _ Ho Hl H).
    unfold item_list_spec. split; [|split].
    + pose proof (filter_length (item_passes min_price max_price show_deleted)
                    (window offset limit (Dict.values (items_db st)))).
      pose proof (window_length offset limit (Dict.values (items_db st)) Hl). lia.
    + intros item HIn. apply filter_In in HIn. destruct HIn as [HIn Hp].
      split; [eapply window_incl, HIn|].
      intros ->. unfold item_passes in Hp. simpl in Hp.
      destruct (Item.deleted item); [discriminate|reflexivity].
    + intros R. apply filter_keeps_ids_distinct. unfold window.
      apply NoDup_map_firstn, NoDup_map_skipn.
      destruct (reachable_store_inv _ _ R) as [SI _ KI _].
      rewrite (keyed_ids _ _ (sequential_NoDup _ SI) KI).
      now apply sequential_NoDup.
  - intros H. unfold get_item_list. cbn [fst].
    rewrite slice_window by assumption. rewrite window_beyond; [reflexivity|].
    unfold Dict.values. rewrite length_map. exact H.
Qed.

Lemma get_item_list_bounded_witness :
  fst (get_item_list 0 2 None None true catalogue) =
    Return [pen_item; Item.set_deleted true (Item.new 2 "ink" (PyFloat.of_Z 2))] /\
  fst (get_item_list 3 2 None None true catalogue) = Return [].
Proof.
  split; [reflexivity|].
  assert (H1 : 0 <= 3) by lia. assert (H2 : 0 < 2) by lia.
  apply (get_item_list_bounded catalogue 3 2 None None true H1 H2). vm_compute.
  discriminate.
Defined.

Lemma firstn_add {A : Type} (n m : nat) (l : list A) :
  firstn (n + m) l = firstn n l ++ firstn m (skipn n l).
Proof.
  revert l. induction n as [|n IH]; intros l; simpl; [reflexivity|].
  destruct l as [|x l]; simpl.
  - now rewrite firstn_nil.
  - now rewrite IH.
Qed.

Lemma window_add {A : Type} (offset l1 l2 : Z) (l : list A) :
  0 <= offset -> 0 <= l1 -> 0 <= l2 ->
  window offset (l1 + l2) l = window offset l1 l ++ window (offset + l1) l2 l.
Proof.
  intros Ho H1 H2. unfold window.
  rewrite Z2Nat.inj_add by assumption. rewrite firstn_add, skipn_skipn.
  do 3 f_equal. lia.
Qed.

Lemma comprehension_app {A : Type} (keep : A -> outcome bool) (a b : list A) r1 r2 :
  comprehension keep a = Return r1 ->
  comprehension keep b = Return r2 ->
  comprehension keep (a ++ b) = Return (r1 ++ r2).
Proof.
  revert r1. induction a as [|x a IH]; simpl; intros r1 Ha Hb.
  - injection Ha as <-. exact Hb.
  - destruct (keep x) as [c|]; simpl in *; [|discriminate].
    destruct (comprehension keep a) as [ra|]; simpl in *; [|discriminate].
    injection Ha as <-. rewrite (IH ra eq_refl Hb). simpl.
    now destruct c.
Qed.

(** X9: pages tile.  For an offset >= 0 and two limits > 0, when
    [get_item_list] returns the page at offset and the page that starts where
    it ends, the call with both limits added returns the first page followed
    by the second, under the same filters; [get_cart_list] does so
    always. *)
Theorem listing_pages_concatenate (st : state) (offset limit1 limit2 : Z) :
  0 <= offset -> 0 < limit1 -> 0 < limit2 ->
  (forall lo hi show_deleted page1 page2,
     fst (get_item_list offset limit1 lo hi show_deleted st) = Return page1 ->
     fst (get_item_list (offset + limit1) limit2 lo hi show_deleted st) = Return page2 ->
     fst (get_item_list offset (limit1 + limit2) lo hi show_deleted st)
       = Return (page1 ++ page2)) /\
  (forall lo hi qlo qhi,
     exists page1 page2,
       fst (get_cart_list offset limit1 lo hi qlo qhi st) = Return page1 /\
       fst (get_cart_list (offset + limit1) limit2 lo hi qlo qhi st) = Return page2 /\
       fst (get_cart_list offset (limit1 + limit2) lo hi qlo qhi st)
         = Return (page1 ++ page2)).
Proof.
  intros Ho H1 H2. split.
  - intros lo hi show_deleted page1 page2 E1 E2.
    unfold get_item_list in *. cbn [fst] in *.
    rewrite slice_window in * by lia.
    rewrite window_add by lia. now apply comprehension_app.
  - intros lo hi qlo qhi. unfold get_cart_list. cbn [fst].
    rewrite !slice_window by lia. rewrite window_add by lia.
    rewrite filter_app. eauto.
Qed.

Lemma listing_pages_concatenate_witness :
  fst (get_item_list 0 3 None None true catalogue) =
    Return ([pen_item; Item.set_deleted true (Item.new 2 "ink" (PyFloat.of_Z 2))]
            ++ [Item.new 3 "desk" (PyFloat.of_Z 10)]).
Proof.
  assert (H0 : 0 <= 0) by lia. assert (H2 : 0 < 2) by lia. assert (H1 : 0 < 1) by lia.
  apply (proj1 (listing_pages_concatenate catalogue 0 2 1 H0 H2 H1)); reflexivity.
Defined.

Lemma filter_filter_andb {A : Type} (p q : A -> bool) (l : list A) :
  filter (fun x => p x && q x) l = filter p (filter q l).
Proof.
  induction l as [|x l IH]; simpl; [reflexivity|].
  destruct (q x); simpl; rewrite ?andb_true_r, ?andb_false_r;
    [destruct (p x)|]; now rewrite IH.
Qed.

(** X10: show_deleted only adds soft-deleted items.  For an offset >= 0 and
    a limit > 0, when [get_item_list] returns with show_deleted set, it
    returns without it as well, under the same window and bounds, and gives
    the same list with the soft-deleted items taken out. *)
Theorem get_item_list_show_deleted (st : state) (offset limit : Z)
  (min_price max_price : option PyFloat.t) (shown : list Item.t) :
  0 <= offset -> 0 < limit ->
  fst (get_item_list offset limit min_price max_price true st) = Return shown ->
  fst (get_item_list offset limit min_price max_price false st)
    = Return (filter (fun item => negb (Item.deleted item)) shown).
Proof.
  intros Ho Hl H. unfold get_item_list in *. cbn [fst] in *.
  rewrite slice_window in * by assumption.
  revert shown H.
  induction (window offset limit (Dict.values (items_db st))) as [|x l IH];
    simpl; intros shown H.
  - now injection H as <-.
  - unfold item_filter at 1 in H. simpl in H.
    unfold item_filter at 1. simpl.
    destruct (match min_price with
              | Some lo => value_ge (Item.price x) lo
              | None => Return true
              end) as [b|] eqn:E1; simpl in H; [|discriminate].
    destruct (if b then match max_price with
                        | Some hi => value_le (Item.price x) hi
                        | None => Return true
                        end else Return false) as [c|] eqn:E2; simpl in H;
      [|discriminate].
    destruct (comprehension (item_filter min_price max_price true) l) as [r|];
      simpl in H; [|discriminate].
    injection H as <-. rewrite (IH r eq_refl).
    destruct (Item.deleted x) eqn:D; simpl.
    + destruct c; simpl; rewrite ?D; reflexivity.
    + rewrite ?E1; simpl; rewrite ?E2; simpl.
      destruct c; simpl; rewrite ?D; reflexivity.
Qed.

Lemma get_item_list_show_deleted_witness :
  fst (get_item_list 0 10 None None true catalogue) =
    Return [pen_item; Item.set_deleted true (Item.new 2 "ink" (PyFloat.of_Z 2));
            Item.new 3 "desk" (PyFloat.of_Z 10)] /\
  fst (get_item_list 0 10 None None false catalogue) =
    Return [pen_item; Item.new 3 "desk" (PyFloat.of_Z 10)].
Proof.
  split; [reflexivity|].
  assert (H0 : 0 <= 0) by lia. assert (H1 : 0 < 10) by lia.
  apply (get_item_list_show_deleted catalogue 0 10 None None _ H0 H1 eq_refl).
Defined.

(** ** Carts *)

Lemma fold_add_shift (l : list Z) (a b : Z) :
  fold_left Z.add l (a + b) = fold_left Z.add l a + b.
Proof.
  revert a. induction l as [|x l IH]; intros a; simpl; [reflexivity|].
  replace (a + b + x) with (a + x + b) by lia. apply IH.
Qed.

Lemma add_cart_item_total item items : forall a,
  fold_left Z.add (map CartItem.quantity (add_cart_item item items)) a =
  fold_left Z.add (map CartItem.quantity items) a + 1.
Proof.
  induction items as [|ci items IH]; intros a; simpl; [reflexivity|].
  destruct (CartItem.id ci =? Item.id item); simpl.
  - rewrite Z.add_assoc. apply fold_add_shift.
  - apply IH.
Qed.

Lemma add_cart_item_shape item items :
  (In (Item.id item) (map CartItem.id items) /\
   map CartItem.id (add_cart_item item items) = map CartItem.id items /\
   map CartItem.name (add_cart_item item items) = map CartItem.name items) \/
  (~ In (Item.id item) (map CartItem.id items) /\
   add_cart_item item items = items ++ [new_cart_item item 1]).
Proof.
  induction items as [|ci items IH]; simpl.
  - right. split; [tauto|reflexivity].
  - destruct (CartItem.id ci =? Item.id item) eqn:E.
    + apply Z.eqb_eq in E. left. simpl. auto.
    + apply Z.eqb_neq in E. destruct IH as [(HIn & E1 & E2)|(HN & E1)].
      * left. simpl. rewrite E1, E2. auto.
      * right. rewrite E1. split; [|reflexivity]. intros [H|H]; auto.
Qed.

Lemma add_cart_item_quantities item items :
  (forall ci, In ci items -> 1 <= CartItem.quantity ci) ->
  forall ci, In ci (add_cart_item item items) -> 1 <= CartItem.quantity ci.
Proof.
  induction items as [|c items IH]; simpl; intros H ci HIn.
  - destruct HIn as [<-|[]]. simpl. lia.
  - destruct (CartItem.id c =? Item.id item).
    + destruct HIn as [<-|HIn]; [|auto]. simpl.
      specialize (H c (or_introl eq_refl)). lia.
    + destruct HIn as [<-|HIn]; [auto|]. apply IH; auto.
Qed.

Lemma add_cart_item_ids_in item items ci :
  In ci (add_cart_item item items) ->
  CartItem.id ci = Item.id item \/ In (CartItem.id ci) (map CartItem.id items).
Proof.
  induction items as [|c items IH]; simpl; intros HIn.
  - destruct HIn as [<-|[]]. now left.
  - destruct (CartItem.id c =? Item.id item).
    + destruct HIn as [<-|HIn]; simpl; [auto|].
      right. right. now apply in_map.
    + destruct HIn as [<-|HIn]; [auto|]. destruct (IH HIn); auto.
Qed.

Lemma add_cart_item_ok st item cart :
  Dict.contains (Item.id item) (items_db st) = true ->
  cart_ok st cart ->
  cart_ok st (Cart.set_items (add_cart_item item (Cart.items cart)) cart).
Proof.
  intros Hc [ND H]. unfold cart_ok. simpl. split.
  - destruct (add_cart_item_shape item (Cart.items cart)) as [(_ & -> & _)|(HN & ->)];
      [exact ND|].
    rewrite map_app. simpl.
    apply NoDup_app; [exact ND|repeat constructor; intros []|].
    intros x Hx [<-|[]]. tauto.
  - intros ci HIn. split.
    + apply (add_cart_item_quantities item (Cart.items cart)); [|exact HIn].
      intros c Hcin. apply H, Hcin.
    + destruct (add_cart_item_ids_in item _ ci HIn) as [->|Hid]; [exact Hc|].
      apply in_map_iff in Hid. destruct Hid as (c & <- & Hcin).
      apply H, Hcin.
Qed.

Lemma handle_keeps_carts req st :
  writes_carts req = false -> carts_db (handle req st) = carts_db st.
Proof.
  destruct req; simpl; intros H; try discriminate; try reflexivity.
  - unfold get_item. destruct (Dict.get id (items_db st)) as [item|];
      [destruct (Item.deleted item)|]; reflexivity.
  - unfold update_item. destruct (Dict.contains id (items_db st)); reflexivity.
  - unfold patch_item. destruct (Dict.get id (items_db st)) as [item|];
      [destruct (Item.deleted item)|]; try reflexivity.
    now destruct (patch_fields body item).
  - unfold delete_item. destruct (Dict.get id (items_db st)); reflexivity.
  - unfold get_cart. destruct (Dict.get id (carts_db st)); reflexivity.
Qed.

Lemma handle_keeps_items req st :
  writes_items req = false -> items_db (handle req st) = items_db st.
Proof.
  destruct req; simpl; intros H; try discriminate; try reflexivity.
  - unfold get_item. destruct (Dict.get id (items_db st)) as [item|];
      [destruct (Item.deleted item)|]; reflexivity.
  - unfold get_cart. destruct (Dict.get id (carts_db st)); reflexivity.
  - apply add_to_cart_items_db.
Qed.

Lemma add_to_cart_state cart_id item_id st :
  snd (add_to_cart cart_id item_id st) = st \/
  exists cart item cart',
    Dict.get cart_id (carts_db st) = Some cart /\
    Dict.get item_id (items_db st) = Some item /\
    Item.deleted item = false /\
    Cart.items cart' = add_cart_item item (Cart.items cart) /\
    Cart.id cart' = Cart.id cart /\
    snd (add_to_cart cart_id item_id st) =
      with_carts (Dict.set cart_id cart' (carts_db st)) st.
Proof.
  unfold add_to_cart.
  destruct (Dict.get cart_id (carts_db st)) as [cart|] eqn:Hc; [|now left].
  destruct (Dict.get item_id (items_db st)) as [item|] eqn:Hi; [|now left].
  destruct (Item.deleted item) eqn:Hd; [now left|]. right.
  destruct (float_add _ _); simpl.
  - exists cart, item,
      (Cart.set_price a (Cart.set_items (add_cart_item item (Cart.items cart)) cart)).
    repeat split; assumption || reflexivity.
  - exists cart, item, (Cart.set_items (add_cart_item item (Cart.items cart)) cart).
    repeat split; assumption || reflexivity.
Qed.

Lemma cart_ok_items st st' cart cart' :
  Cart.items cart' = Cart.items cart ->
  (forall k, Dict.contains k (items_db st) = true ->
             Dict.contains k (items_db st') = true) ->
  cart_ok st cart -> cart_ok st' cart'.
Proof.
  intros E G [ND H]. unfold cart_ok. rewrite E. split; [exact ND|].
  intros ci HIn. destruct (H ci HIn). auto.
Qed.

Lemma handle_carts_ok req st :
  store_inv st -> carts_ok st -> carts_ok (handle req st).
Proof.
  intros [SI SC KI KC] OK.
  destruct (writes_carts req) eqn:W.
  - destruct req; try discriminate; simpl.
    + (* create_cart *)
      intros k cart H. simpl in H.
      destruct (Z.eq_dec k (Dict.len (carts_db st) + 1)) as [->|N].
      * rewrite get_set_same in H. injection H as <-.
        split; [constructor|intros ci []].
      * rewrite get_set_other in H by assumption.
        eapply cart_ok_items; [reflexivity| |exact (OK k cart H)]. auto.
    + (* add_to_cart *)
      destruct (add_to_cart_state cart_id item_id st)
        as [->|(cart & item & cart' & Hc & Hi & Hd & Eitems & Eid & ->)];
        [exact OK|].
      intros k c H. simpl in H.
      destruct (Z.eq_dec k cart_id) as [->|N].
      * rewrite get_set_same in H. injection H as <-.
        apply (cart_ok_items st _
                 (Cart.set_items (add_cart_item item (Cart.items cart)) cart));
          [exact Eitems|auto|].
        apply add_cart_item_ok; [|exact (OK cart_id cart Hc)].
        rewrite (KI item_id item Hi). unfold Dict.contains. now rewrite Hi.
      * rewrite get_set_other in H by assumption.
        eapply cart_ok_items; [reflexivity| |exact (OK k c H)]. auto.
  - intros k cart H. rewrite (handle_keeps_carts req st W) in H.
    eapply cart_ok_items; [reflexivity| |exact (OK k cart H)].
    apply (handle_grows req st).
Qed.

Lemma reachable_carts_ok st : reachable st -> carts_ok st.
Proof.
  induction 1 as [|req st R IH _].
  - intros k cart H. discriminate.
  - apply handle_carts_ok; [|exact IH]. exact (reachable_store_inv _ _ R).
Qed.

Lemma quantities_at_least_count (l : list Z) :
  (forall q, In q l -> 1 <= q) -> Z.of_nat (length l) <= fold_left Z.add l 0.
Proof.
  induction l as [|x l IH]; simpl; intros H; [lia|].
  replace (fold_left Z.add l x) with (fold_left Z.add l 0 + x)
    by (symmetry; apply (fold_add_shift l 0 x)).
  pose proof (H x (or_introl eq_refl)).
  assert (Z.of_nat (length l) <= fold_left Z.add l 0) by (apply IH; auto).
  lia.
Qed.

(** X11: in every reachable state, every stored cart holds at most one cart
    item per item id, every cart item has a quantity of at least 1 and
    carries the id of an item that is in the item store (soft-deleted or
    not), and the cart's total quantity is at least the number of its cart
    items. *)
Theorem carts_stay_consistent (st : state) (k : Z) (cart : Cart.t) :
  reachable st ->
  Dict.get k (carts_db st) = Some cart ->
  NoDup (map CartItem.id (Cart.items cart)) /\
  (forall cart_item, In cart_item (Cart.items cart) ->
     1 <= CartItem.quantity cart_item /\
     exists item,
       Dict.get (CartItem.id cart_item) (items_db st) = Some item /\
       Item.id item = CartItem.id cart_item) /\
  Z.of_nat (length (Cart.items cart)) <= total_quantity cart /\
  Cart.id cart = k.
Proof.
  intros R H. destruct (reachable_carts_ok st R k cart H) as [ND Hall].
  destruct (reachable_store_inv _ _ R) as [_ _ KI KC].
  split; [exact ND|]. split; [|split].
  - intros ci HIn. destruct (Hall ci HIn) as [Hq Hk]. split; [exact Hq|].
    apply contains_get in Hk. destruct Hk as [item Hitem].
    exists item. split; [exact Hitem|]. now apply KI.
  - unfold total_quantity. rewrite <- (length_map CartItem.quantity).
    apply quantities_at_least_count. intros q Hq.
    apply in_map_iff in Hq. destruct Hq as (ci & <- & HIn). now apply Hall.
  - now apply KC.
Qed.

Lemma carts_stay_consistent_witness :
  exists cart,
    Dict.get 1 (carts_db ledger) = Some cart /\
    NoDup (map CartItem.id (Cart.items cart)) /\
    Cart.id cart = 1.
Proof.
  eexists. split; [reflexivity|].
  pose proof (carts_stay_consistent ledger 1 _ (run_reachable _) eq_refl) as H.
  split; apply H.
Defined.

(** X12: when [add_to_cart] returns, the cart it returns is the cart now
    stored under that id; its total quantity is one more than before, its id
    is unchanged, its price is the former price plus the item's price, and it
    has the same number of cart items or one more.  Every other cart is
    untouched. *)
Theorem add_to_cart_adds_one (st : state) (cart_id item_id : Z)
  (cart cart' : Cart.t) :
  Dict.get cart_id (carts_db st) = Some cart ->
  fst (add_to_cart cart_id item_id st) = Return cart' ->
  let st' := snd (add_to_cart cart_id item_id st) in
  get_cart cart_id st' = (Return cart', st') /\
  total_quantity cart' = total_quantity cart + 1 /\
  Cart.id cart' = Cart.id cart /\
  (exists item,
     Dict.get item_id (items_db st) = Some item /\
     Item.deleted item = false /\
     float_add (Cart.price cart) (Item.price item) = Return (Cart.price cart')) /\
  (length (Cart.items cart') = length (Cart.items cart) \/
   length (Cart.items cart') = S (length (Cart.items cart))) /\
  (forall k, k <> cart_id -> Dict.get k (carts_db st') = Dict.get k (carts_db st)).
Proof.
  intros Hc. unfold add_to_cart. rewrite Hc.
  destruct (Dict.get item_id (items_db st)) as [item|] eqn:Hi; [|discriminate].
  destruct (Item.deleted item) eqn:Hd; [discriminate|].
  simpl. destruct (float_add (Cart.price cart) (Item.price item)) as [p|e] eqn:Hp;
    [|discriminate].
  simpl. intros H. injection H as <-. simpl.
  split; [|split; [|split; [|split; [|split]]]].
  - unfold get_cart. simpl. now rewrite get_set_same.
  - unfold total_quantity. simpl. apply add_cart_item_total.
  - reflexivity.
  - exists item. auto.
  - destruct (add_cart_item_shape item (Cart.items cart)) as [(_ & E & _)|(_ & ->)].
    + left. rewrite <- (length_map CartItem.id), E. apply length_map.
    + right. rewrite length_app. simpl. lia.
  - intros k N. now apply get_set_other.
Qed.

Lemma add_to_cart_adds_one_witness :
  exists cart',
    fst (add_to_cart 1 2 ledger) = Return cart' /\
    total_quantity cart' = 2 /\
    length (Cart.items cart') = 2%nat.
Proof.
  eexists. split; [reflexivity|].
  destruct (add_to_cart_adds_one ledger 1 2 _ _ eq_refl eq_refl) as (_ & -> & _).
  split; reflexivity.
Defined.

Lemma add_cart_item_found item before ci after :
  lacks (Item.id item) before ->
  CartItem.id ci = Item.id item ->
  add_cart_item item (before ++ ci :: after) =
    before ++ CartItem.set_quantity (CartItem.quantity ci + 1) ci :: after.
Proof.
  intros L E. induction before as [|c before IH]; simpl.
  - now rewrite E, Z.eqb_refl.
  - destruct (CartItem.id c =? Item.id item) eqn:E'.
    + apply Z.eqb_eq in E'. exfalso. apply (L c); [now left|exact E'].
    + rewrite IH; [reflexivity|]. intros x Hx. apply L. now right.
Qed.

(** X13: when the cart already holds a cart item for the item, [add_to_cart]
    raises that cart item's quantity by one where it stands and keeps its
    name: the name is the one copied when the item was first added, whatever
    the item is called now; nothing is appended, and the cart's price grows
    by the item's current price. *)
Theorem add_to_cart_existing_cart_item (st : state) (cart_id item_id : Z)
  (cart : Cart.t) (item : Item.t) (p : PyFloat.t)
  (before after : list CartItem.t) (cart_item : CartItem.t) :
  Dict.get cart_id (carts_db st) = Some cart ->
  Dict.get item_id (items_db st) = Some item ->
  Item.deleted item = false ->
  Item.id item = item_id ->
  Item.price item = VFloat p ->
  Cart.items cart = before ++ cart_item :: after ->
  lacks item_id before ->
  CartItem.id cart_item = item_id ->
  fst (add_to_cart cart_id item_id st) =
    Return {| Cart.id := Cart.id cart;
              Cart.items :=
                before ++
                {| CartItem.id := item_id;
                   CartItem.name := CartItem.name cart_item;
                   CartItem.quantity := CartItem.quantity cart_item + 1 |} :: after;
              Cart.price := PyFloat.add (Cart.price cart) p |}.
Proof.
  intros Hc Hi Hd Hid Hp Hitems L E.
  rewrite (add_to_cart_float st cart_id item_id cart item p Hc Hi Hd Hp).
  cbv zeta. simpl. rewrite Hitems.
  rewrite add_cart_item_found by (rewrite Hid; assumption).
  unfold CartItem.set_quantity. now rewrite E.
Qed.

Lemma add_to_cart_existing_cart_item_witness :
  Dict.get 1 (items_db renamed_shop) = Some (Item.set_name (VStr "ink") pen_item) /\
  fst (add_to_cart 1 1 renamed_shop) =
    Return {| Cart.id := 1;
              Cart.items := [{| CartItem.id := 1;
                                CartItem.name := VStr "pen";
                                CartItem.quantity := 2 |}];
              Cart.price := PyFloat.of_Z 3 |}.
Proof.
  split; [reflexivity|].
  assert (L : lacks 1 []) by (intros ci []).
  rewrite (add_to_cart_existing_cart_item renamed_shop 1 1 _ _ _ [] []
             {| CartItem.id := 1; CartItem.name := VStr "pen"; CartItem.quantity := 1 |}
             eq_refl eq_refl eq_refl eq_refl eq_refl eq_refl L eq_refl).
  reflexivity.
Defined.

(** ** What the handlers never touch *)

(** X14: no sequence of requests to the item routes (create, get, list,
    replace, patch, delete) or of reads changes the cart store: the names,
    quantities and prices in the carts stay as they were, whatever happens to
    the items.  No sequence of requests to the cart routes or of reads
    changes the item store. *)
Theorem stores_are_separate (reqs : list request) (st : state) :
  (forallb (fun req => negb (writes_carts req)) reqs = true ->
   carts_db (run reqs st) = carts_db st) /\
  (forallb (fun req => negb (writes_items req)) reqs = true ->
   items_db (run reqs st) = items_db st).
Proof.
  revert st. induction reqs as [|req reqs IH]; intros st; simpl; [split; reflexivity|].
  destruct (IH (handle req st)) as [IHc IHi]. split; intros H;
    apply andb_prop in H; destruct H as [Hreq H]; apply negb_true_iff in Hreq.
  - rewrite (IHc H). now apply handle_keeps_carts.
  - rewrite (IHi H). now apply handle_keeps_items.
Qed.

Lemma stores_are_separate_witness :
  carts_db (run [PutItem 1 ink; DeleteItem 1; PostItem desk] ledger) = carts_db ledger /\
  items_db (run [PostCart; PostCartAdd 1 2; GetCart 1] ledger) = items_db ledger.
Proof.
  split.
  - apply (proj1 (stores_are_separate [PutItem 1 ink; DeleteItem 1; PostItem desk] ledger)).
    reflexivity.
  - apply (proj2 (stores_are_separate [PostCart; PostCartAdd 1 2; GetCart 1] ledger)).
    reflexivity.
Defined.

(** ** Ids that were never assigned *)

(** X15: in a reachable state the ids in use are 1, ..., count.  An item id
    outside that range makes [get_item] and [patch_item] and every
    [add_to_cart] raise NotFound and leave the state as it is; a cart id
    outside its range does the same to [get_cart] and [add_to_cart].  Every
    id inside the range is present: the item store holds an item with that
    id, and [get_cart] returns the cart with that id. *)
Theorem unassigned_ids_not_found (st : state) (id : Z) :
  reachable st ->
  (id < 1 \/ Dict.len (items_db st) < id ->
   get_item id st = (Raise NotFound, st) /\
   (forall body, patch_item id body st = (Raise NotFound, st)) /\
   (forall cart_id, add_to_cart cart_id id st = (Raise NotFound, st))) /\
  (id < 1 \/ Dict.len (carts_db st) < id ->
   get_cart id st = (Raise NotFound, st) /\
   (forall item_id, add_to_cart id item_id st = (Raise NotFound, st))) /\
  (1 <= id <= Dict.len (items_db st) ->
   exists item, Dict.get id (items_db st) = Some item /\ Item.id item = id) /\
  (1 <= id <= Dict.len (carts_db st) ->
   exists cart, get_cart id st = (Return cart, st) /\ Cart.id cart = id).
Proof.
  intros R. destruct (reachable_store_inv _ _ R) as [SI SC KI KC].
  split; [|split; [|split]].
  - intros H. apply (sequential_get_None _ _ SI) in H.
    unfold get_item, patch_item, add_to_cart. rewrite H.
    repeat split. intros cart_id. now destruct (Dict.get cart_id (carts_db st)).
  - intros H. apply (sequential_get_None _ _ SC) in H.
    unfold get_cart, add_to_cart. rewrite H. now split.
  - intros H. destruct (Dict.get id (items_db st)) as [item|] eqn:E.
    + exists item. split; [reflexivity|]. now apply KI.
    + apply (sequential_get_None _ _ SI) in E. lia.
  - intros H. unfold get_cart. destruct (Dict.get id (carts_db st)) as [cart|] eqn:E.
    + exists cart. split; [reflexivity|]. now apply KC.
    + apply (sequential_get_None _ _ SC) in E. lia.
Qed.

Lemma unassigned_ids_not_found_witness :
  reachable shop /\
  get_item 0 shop = (Raise NotFound, shop) /\
  get_cart (-3) shop = (Raise NotFound, shop) /\
  add_to_cart 1 2 shop = (Raise NotFound, shop).
Proof.
  pose proof (unassigned_ids_not_found shop 0 (run_reachable _)) as (H0 & _).
  pose proof (unassigned_ids_not_found shop (-3) (run_reachable _)) as (_ & H3 & _).
  pose proof (unassigned_ids_not_found shop 2 (run_reachable _)) as (H2 & _).
  split; [apply run_reachable|]. split; [|split].
  - apply H0. left. lia.
  - apply H3. left. lia.
  - apply H2. right. vm_compute. reflexivity.
Defined.

(** ** Replace after other writes *)

(** X16: on an id that is in the store, [update_item] leaves the same state
    whether or not a PATCH, a DELETE or another PUT of that id came just
    before it: a replace wipes out what they did to the item. *)
Theorem update_item_overrides (st : state) (id : Z) (item : ItemPost.t) :
  Dict.contains id (items_db st) = true ->
  (forall body,
     snd (update_item id item (snd (patch_item id body st))) =
     snd (update_item id item st)) /\
  snd (update_item id item (snd (delete_item id st))) = snd (update_item id item st) /\
  (forall earlier,
     snd (update_item id item (snd (update_item id earlier st))) =
     snd (update_item id item st)).
Proof.
  intros C. pose proof C as C'. apply contains_get in C'. destruct C' as [old Hold].
  assert (U : forall (d : Dict.t Item.t) x,
             Dict.contains id (Dict.set id x d) = true).
  { intros d x. unfold Dict.contains. now rewrite get_set_same. }
  split; [|split].
  - intros body. unfold patch_item. rewrite Hold.
    destruct (Item.deleted old); [reflexivity|].
    destruct (patch_fields body old) as [r item']. simpl.
    unfold update_item. simpl. rewrite U, C. simpl.
    unfold with_items. simpl. now rewrite set_set.
  - rewrite (delete_item_present st id old Hold). simpl.
    unfold update_item. simpl. rewrite U, C. simpl.
    unfold with_items. simpl. now rewrite set_set.
  - intros earlier. unfold update_item at 2. rewrite C. simpl.
    unfold update_item. simpl. rewrite U, C. simpl.
    unfold with_items. simpl. now rewrite set_set.
Qed.

Lemma update_item_overrides_witness :
  Dict.contains 1 (items_db shop) = true /\
  snd (update_item 1 ink (snd (delete_item 1 shop))) = snd (update_item 1 ink shop).
Proof.
  split; [reflexivity|].
  apply (update_item_overrides shop 1 ink eq_refl).
Defined.

(** ** Get and list agree *)

Lemma values_in_get {V : Type} (d : Dict.t V) (v : V) :
  Dict.wf d -> In v (Dict.values d) -> exists k, Dict.get k d = Some v.
Proof.
  intros W H. unfold Dict.values in H. apply in_map_iff in H.
  destruct H as ([k v'] & E & HIn). simpl in E. subst v'.
  exists k. now apply wf_in_get.
Qed.

(** X17: in a reachable state, a listing from offset 0 whose limit covers
    the store, with no price bound and without show_deleted, returns exactly
    the items [get_item] finds: an item is in the list if and only if
    [get_item] on its id returns it.  [get_cart_list] with such a window and
    no bound returns every cart, in the order of the ids 1, 2, ... *)
Theorem get_item_agrees_with_listing (st : state) (limit : Z) :
  reachable st ->
  0 < limit ->
  Dict.len (items_db st) <= limit ->
  Dict.len (carts_db st) <= limit ->
  (exists l,
     fst (get_item_list 0 limit None None false st) = Return l /\
     forall item,
       In item l <-> get_item (Item.id item) st = (Return item, st)) /\
  (exists carts,
     fst (get_cart_list 0 limit None None None None st) = Return carts /\
     carts = Dict.values (carts_db st) /\
     map Cart.id carts = map Z.of_nat (seq 1 (length carts))).
Proof.
  intros R Hl Hi Hc. destruct (reachable_store_inv _ _ R) as [SI SC KI KC].
  assert (W : forall (A : Type) (l : list A),
             Z.of_nat (length l) <= limit -> window 0 limit l = l).
  { intros A l H. unfold window. simpl. apply firstn_all2. lia. }
  split.
  - exists (item_list_spec 0 limit None None false st). split.
    + rewrite get_item_list_returns; auto; lia.
    + intros item. unfold item_list_spec. rewrite filter_In.
      rewrite W by (unfold Dict.values; rewrite length_map; exact Hi).
      unfold item_passes, get_item. simpl. rewrite !andb_true_r. split.
      * intros [HIn Hd].
        destruct (values_in_get _ _ (sequential_NoDup _ SI) HIn) as [k Hk].
        rewrite <- (KI k item Hk) in Hk. rewrite Hk.
        apply negb_true_iff in Hd. now rewrite Hd.
      * destruct (Dict.get (Item.id item) (items_db st)) as [it|] eqn:E;
          [|discriminate].
        destruct (Item.deleted it) eqn:D; [discriminate|].
        intros H. injection H as ->. split.
        -- eapply get_Some_values; eauto.
        -- now rewrite D.
  - exists (Dict.values (carts_db st)). split; [|split; [reflexivity|]].
    + unfold get_cart_list. cbn [fst]. rewrite slice_window by lia.
      rewrite W by (unfold Dict.values; rewrite length_map; exact Hc).
      f_equal. apply filter_all. apply forallb_forall. reflexivity.
    + rewrite (keyed_ids _ _ (sequential_NoDup _ SC) KC).
      unfold Dict.values. rewrite length_map. exact SC.
Qed.

Lemma get_item_agrees_with_listing_witness :
  reachable catalogue /\
  fst (get_item_list 0 3 None None false catalogue) =
    Return [pen_item; Item.new 3 "desk" (PyFloat.of_Z 10)] /\
  exists carts, fst (get_cart_list 0 3 None None None None catalogue) = Return carts.
Proof.
  split; [apply run_reachable|]. split; [reflexivity|].
  assert (H1 : 0 < 3) by lia.
  assert (H2 : Dict.len (items_db catalogue) <= 3) by (vm_compute; discriminate).
  assert (H3 : Dict.len (carts_db catalogue) <= 3) by (vm_compute; discriminate).
  destruct (get_item_agrees_with_listing catalogue 3 (run_reachable _) H1 H2 H3)
    as (_ & carts & E & _).
  exists carts. exact E.
Defined.

(** ** Without PATCH *)

Lemma handle_keeps_items_typed req st :
  validated req = true -> is_patch req = false ->
  items_typed st -> items_typed (handle req st).
Proof.
  intros Hv Hp T.
  destruct (writes_items req) eqn:W;
    [|unfold items_typed; now rewrite (handle_keeps_items req st W)].
  destruct req; try discriminate; simpl in *.
  - intros it HIn. apply values_set_in in HIn. destruct HIn as [->|HIn]; [|auto].
    exists (ItemPost.name item), (ItemPost.price item). auto.
  - unfold update_item. destruct (Dict.contains id (items_db st)); simpl; [|exact T].
    intros it HIn. apply values_set_in in HIn. destruct HIn as [->|HIn]; [|auto].
    exists (ItemPost.name item), (ItemPost.price item). auto.
  - unfold delete_item. destruct (Dict.get id (items_db st)) as [item|] eqn:Hget;
      [|exact T].
    intros it HIn. apply values_set_in in HIn. destruct HIn as [->|HIn]; [|auto].
    apply (T item). eapply get_Some_values; eauto.
Qed.

Lemma run_keeps_items_typed reqs : forall st,
  forallb validated reqs = true ->
  forallb (fun req => negb (is_patch req)) reqs = true ->
  items_typed st -> items_typed (run reqs st).
Proof.
  induction reqs as [|req reqs IH]; intros st Hv Hp T; simpl in *; [exact T|].
  apply andb_prop in Hv. destruct Hv as [Hv1 Hv].
  apply andb_prop in Hp. destruct Hp as [Hp1 Hp]. apply negb_true_iff in Hp1.
  apply IH; auto. now apply handle_keeps_items_typed.
Qed.

(** X18: after any sequence of validated requests none of which is a PATCH,
    every stored item has a string for a name and a non-negative float for a
    price.  In such a state [get_item_list] returns for every offset >= 0,
    limit > 0 and bounds, and [add_to_cart] raises nothing but NotFound. *)
Theorem typed_without_patch (reqs : list request) :
  forallb validated reqs = true ->
  forallb (fun req => negb (is_patch req)) reqs = true ->
  let st := run reqs empty_state in
  items_typed st /\
  prices_non_negative st /\
  (forall offset limit lo hi show_deleted,
     0 <= offset -> 0 < limit ->
     exists l, fst (get_item_list offset limit lo hi show_deleted st) = Return l) /\
  (forall cart_id item_id e,
     fst (add_to_cart cart_id item_id st) = Raise e -> e = NotFound).
Proof.
  intros Hv Hp st.
  assert (T : items_typed st).
  { apply run_keeps_items_typed; auto. intros item []. }
  split; [exact T|]. split; [|split].
  - intros item HIn. destruct (T item HIn) as (s & f & _ & -> & Hf).
    unfold price_non_negative. simpl. unfold non_negative_float in Hf. now rewrite Hf.
  - intros offset limit lo hi show_deleted Ho Hl.
    rewrite get_item_list_returns; auto; [eexists; reflexivity|].
    left. intros item HIn. destruct (T item HIn) as (s & f & _ & -> & _). reflexivity.
  - intros cart_id item_id e. unfold add_to_cart.
    destruct (Dict.get cart_id (carts_db st)) as [cart|];
      [|simpl; intros H; now injection H as <-].
    destruct (Dict.get item_id (items_db st)) as [item|] eqn:Hi;
      [|simpl; intros H; now injection H as <-].
    destruct (Item.deleted item); [simpl; intros H; now injection H as <-|].
    destruct (T item (get_Some_values _ _ _ Hi)) as (s & f & _ & Hprice & _).
    simpl. rewrite Hprice. simpl. discriminate.
Qed.

Lemma typed_without_patch_witness :
  items_typed ledger /\
  exists l, fst (get_item_list 0 10 (Some (PyFloat.of_Z 1)) None false ledger) = Return l.
Proof.
  pose proof (typed_without_patch
                [PostItem bullion; PostItem stamp; PostCart; PostCartAdd 1 1]
                eq_refl eq_refl) as (T & _ & L & _).
  split; [exact T|]. apply L; lia.
Defined.

(** ** The first add *)

Lemma zero_plus p : p <> S754_nan -> float_eqb (PyFloat.add PyFloat.zero p) p = true.
Proof.
  unfold float_eqb, PyFloat.add, PyFloat.zero, SFeqb.
  destruct p as [s|s| |s m e]; simpl; intros N.
  - now destruct s.
  - now destruct s.
  - congruence.
  - destruct s; rewrite Z.compare_refl, Pos.compare_cont_refl; reflexivity.
Qed.

(** X19: when the cart holds no cart item for the item, [add_to_cart]
    appends one with the item's id, the item's current name and quantity 1,
    after the cart items that were there, and adds the item's price to the
    cart's price.  On a cart whose price is still 0.0 the new price compares
    equal to the item's price. *)
Theorem add_to_cart_new_cart_item (st : state) (cart_id item_id : Z)
  (cart : Cart.t) (item : Item.t) (p : PyFloat.t) :
  Dict.get cart_id (carts_db st) = Some cart ->
  Dict.get item_id (items_db st) = Some item ->
  Item.deleted item = false ->
  Item.price item = VFloat p ->
  lacks (Item.id item) (Cart.items cart) ->
  exists cart',
    fst (add_to_cart cart_id item_id st) = Return cart' /\
    Cart.id cart' = Cart.id cart /\
    Cart.items cart' =
      Cart.items cart ++
      [{| CartItem.id := Item.id item;
          CartItem.name := Item.name item;
          CartItem.quantity := 1 |}] /\
    Cart.price cart' = PyFloat.add (Cart.price cart) p /\
    (Cart.price cart = PyFloat.zero -> p <> S754_nan ->
     float_eqb (Cart.price cart') p = true).
Proof.
  intros Hc Hi Hd Hp L.
  rewrite (add_to_cart_float st cart_id item_id cart item p Hc Hi Hd Hp).
  cbv zeta. eexists. split; [reflexivity|]. simpl.
  split; [reflexivity|]. split; [now apply add_cart_item_new|].
  split; [reflexivity|]. intros -> N. now apply zero_plus.
Qed.

Lemma add_to_cart_new_cart_item_witness :
  exists cart',
    fst (add_to_cart 1 1 shop) = Return cart' /\
    map CartItem.quantity (Cart.items cart') = [1] /\
    float_eqb (Cart.price cart') (PyFloat.of_dyadic 3 (-1)) = true.
Proof.
  assert (L : lacks (Item.id pen_item) (Cart.items (Cart.new 1))) by (intros ci []).
  destruct (add_to_cart_new_cart_item shop 1 1 (Cart.new 1) pen_item
              (PyFloat.of_dyadic 3 (-1)) eq_refl eq_refl eq_refl eq_refl L)
    as (cart' & E & _ & Eitems & _ & Eprice).
  exists cart'. split; [exact E|]. split.
  - rewrite Eitems. reflexivity.
  - apply Eprice; [reflexivity|discriminate].
Defined.

(** ** Carts only grow *)

Lemma cart_extends_refl cart : cart_extends cart cart.
Proof.
  split; [reflexivity|]. split; [|lia]. exists []. now rewrite app_nil_r.
Qed.

Lemma cart_extends_trans c1 c2 c3 :
  cart_extends c1 c2 -> cart_extends c2 c3 -> cart_extends c1 c3.
Proof.
  intros (I1 & (m1 & E1) & Q1) (I2 & (m2 & E2) & Q2).
  split; [congruence|]. split; [|lia].
  exists (m1 ++ m2). now rewrite E2, E1, app_assoc.
Qed.

Lemma add_cart_item_labels item items :
  exists more,
    map cart_item_label (add_cart_item item items) =
    map cart_item_label items ++ more.
Proof.
  induction items as [|ci items IH]; simpl.
  - eexists. reflexivity.
  - destruct (CartItem.id ci =? Item.id item); simpl.
    + exists []. now rewrite app_nil_r.
    + destruct IH as [more ->]. now exists more.
Qed.

Lemma handle_cart_extends req st k cart :
  store_inv st ->
  Dict.get k (carts_db st) = Some cart ->
  exists cart',
    Dict.get k (carts_db (handle req st)) = Some cart' /\ cart_extends cart cart'.
Proof.
  intros [SI SC KI KC] H.
  destruct (writes_carts req) eqn:W;
    [|rewrite (handle_keeps_carts req st W); eauto using cart_extends_refl].
  destruct req; try discriminate; simpl.
  - (* create_cart *)
    assert (N : k <> Dict.len (carts_db st) + 1).
    { intros ->. rewrite (sequential_fresh _ SC) in H. discriminate. }
    rewrite get_set_other by assumption. eauto using cart_extends_refl.
  - (* add_to_cart *)
    destruct (add_to_cart_state cart_id item_id st)
      as [->|(c & item & c' & Hc & Hi & Hd & Eitems & Eid & ->)];
      [eauto using cart_extends_refl|].
    simpl. destruct (Z.eq_dec k cart_id) as [->|N].
    + rewrite get_set_same. exists c'. split; [reflexivity|].
      rewrite Hc in H. injection H as ->.
      split; [exact Eid|]. split.
      * rewrite Eitems. apply add_cart_item_labels.
      * unfold total_quantity. rewrite Eitems, add_cart_item_total. lia.
    + rewrite get_set_other by assumption. eauto using cart_extends_refl.
Qed.

(** X20: a cart only grows.  From a reachable state, after any further
    sequence of requests every cart is still stored under its id, with its cart
    items in the same places under the same names, maybe followed by new
    ones, and with a total quantity that is no smaller. *)
Theorem carts_only_grow (reqs : list request) (st : state) (k : Z) (cart : Cart.t) :
  reachable st ->
  Dict.get k (carts_db st) = Some cart ->
  exists cart',
    Dict.get k (carts_db (run reqs st)) = Some cart' /\
    Cart.id cart' = Cart.id cart /\
    (exists more,
       map cart_item_label (Cart.items cart') =
       map cart_item_label (Cart.items cart) ++ more) /\
    total_quantity cart <= total_quantity cart'.
Proof.
  revert st cart. induction reqs as [|req reqs IH]; intros st cart R H; simpl.
  - exists cart. split; [exact H|]. apply cart_extends_refl.
  - destruct (handle_cart_extends req st k cart (reachable_store_inv _ _ R) H)
      as (c1 & H1 & X1).
    assert (R1 : reachable (handle req st)) by (now apply reachable_handle).
    destruct (IH (handle req st) c1 R1 H1) as (c2 & H2 & X2).
    exists c2. split; [exact H2|]. exact (cart_extends_trans _ _ _ X1 X2).
Qed.

Lemma carts_only_grow_witness :
  reachable ledger /\
  exists cart',
    Dict.get 1 (carts_db (run [DeleteItem 1; PostCartAdd 1 2; PostCartAdd 1 2] ledger))
      = Some cart' /\
    1 <= total_quantity cart'.
Proof.
  split; [apply run_reachable|].
  destruct (carts_only_grow [DeleteItem 1; PostCartAdd 1 2; PostCartAdd 1 2]
              ledger 1 _ (run_reachable _) eq_refl) as (cart' & E & _ & _ & Q).
  exists cart'. split; [exact E|]. exact Q.
Defined.
